(** * server.js: the wallet, contest-join and leaderboard routes

    A shallow embedding of the Express handlers of [src/server.js] that
    read and write balances, contest counters, teams and payments, and
    the properties of the ledger specification checked against them.

    Modelling conventions.
    - A Mongo collection is the list of its documents in natural
      (insertion) order; [findOne] returns the first match, an update by
      [_id] touches the first document with that [_id], saving a new
      document appends it.
    - A schema field of type [Number] is an integer ([Z]); an [ObjectId]
      is a natural number; [Date] values are integers.
    - Each request is handled to completion before the next one starts.
    - What the process takes from outside while it handles a request (the
      clock, the freshly generated [ObjectId], the decoded token, the
      bcrypt hash, the payment gateway's answer) is part of the request.
    - Storage failures are not modelled; a modelled handler throws only
      when it reads a field of [null] or when the gateway call throws. *)

From Stdlib Require Import ZArith List String Bool Lia Permutation Sorted.
Import ListNotations.
Open Scope string_scope.
Open Scope Z_scope.

Definition ObjectId := nat.
Bind Scope nat_scope with ObjectId.

(** ** Schemas *)

Module User.
Record t := mk {
  _id : ObjectId;
  name : string;
  email : string;
  phone : string;
  password : string;
  balance : Z;
  totalWinning : Z;
  totalContests : Z;
  kycVerified : bool;
  createdAt : Z
}.

(** [$inc: { balance: d }] *)
Definition inc_balance (d : Z) (u : t) : t :=
  mk (_id u) (name u) (email u) (phone u) (password u)
     (balance u + d) (totalWinning u) (totalContests u)
     (kycVerified u) (createdAt u).

(** [$inc: { balance: d, totalContests: n }] *)
Definition inc_balance_contests (d n : Z) (u : t) : t :=
  mk (_id u) (name u) (email u) (phone u) (password u)
     (balance u + d) (totalWinning u) (totalContests u + n)
     (kycVerified u) (createdAt u).
End User.

Module Contest.
Record tier := mkTier { rankFrom : Z; rankTo : Z; prize : Z }.

Record t := mk {
  _id : ObjectId;
  matchId : string;
  name : string;
  entryFee : Z;
  prizePool : Z;
  maxTeams : Z;
  joinedTeams : Z;
  winningBreakup : list tier;
  isActive : bool;
  createdAt : Z
}.

(** [$inc: { joinedTeams: n }] *)
Definition inc_joinedTeams (n : Z) (c : t) : t :=
  mk (_id c) (matchId c) (name c) (entryFee c) (prizePool c) (maxTeams c)
     (joinedTeams c + n) (winningBreakup c) (isActive c) (createdAt c).
End Contest.

Module Player.
Record t := mk {
  playerId : string;
  name : string;
  role : string;
  points : Z
}.
End Player.

Module Team.
Record t := mk {
  _id : ObjectId;
  userId : ObjectId;
  contestId : ObjectId;
  matchId : string;
  teamName : string;
  captain : string;
  viceCaptain : string;
  players : list Player.t;
  totalPoints : Z;
  rank : option Z;
  createdAt : Z
}.

(** [team.rank = r] on the in-memory document *)
Definition set_rank (r : Z) (d : t) : t :=
  mk (_id d) (userId d) (contestId d) (matchId d) (teamName d) (captain d)
     (viceCaptain d) (players d) (totalPoints d) (Some r) (createdAt d).
End Team.

Module Payment.
Record t := mk {
  _id : ObjectId;
  userId : ObjectId;
  orderId : string;
  paymentId : option string;
  amount : Z;
  status : string;
  createdAt : Z
}.

(** [payment.paymentId = pid; payment.status = 'completed'] *)
Definition complete (pid : string) (p : t) : t :=
  mk (_id p) (userId p) (orderId p) (Some pid) (amount p) "completed"
     (createdAt p).
End Payment.

(** ** The database *)

Record DB := mkDB {
  users : list User.t;
  contests : list Contest.t;
  teams : list Team.t;
  payments : list Payment.t
}.

Definition set_users (f : list User.t -> list User.t) (s : DB) : DB :=
  mkDB (f (users s)) (contests s) (teams s) (payments s).
Definition set_contests (f : list Contest.t -> list Contest.t) (s : DB) : DB :=
  mkDB (users s) (f (contests s)) (teams s) (payments s).
Definition set_teams (f : list Team.t -> list Team.t) (s : DB) : DB :=
  mkDB (users s) (contests s) (f (teams s)) (payments s).
Definition set_payments (f : list Payment.t -> list Payment.t) (s : DB) : DB :=
  mkDB (users s) (contests s) (teams s) (f (payments s)).

Section Collection.
Context {D : Type} (id_of : D -> ObjectId).

(** [Model.findById(i)], [Model.findOne({ _id: i })] *)
Definition findById (i : ObjectId) (l : list D) : option D :=
  find (fun d => Nat.eqb (id_of d) i) l.

(** [Model.findByIdAndUpdate(i, upd)] and [doc.save()] of a loaded
    document: the first document whose [_id] is [i] is updated. *)
Fixpoint updateById (i : ObjectId) (upd : D -> D) (l : list D) : list D :=
  match l with
  | [] => []
  | d :: r => if Nat.eqb (id_of d) i then upd d :: r
              else d :: updateById i upd r
  end.

(** [doc.save()] of a new document *)
Definition insertOne (d : D) (l : list D) : list D := l ++ [d].
End Collection.

(** ** Handlers: state, exceptions, responses *)

Inductive Error :=
| TypeError (message : string)
| GatewayError (message : string).

Definition message (e : Error) : string :=
  match e with TypeError m | GatewayError m => m end.

(** A computation over the database that returns or throws; what was
    written before a throw stays written (there is no transaction). *)
Definition M (A : Type) : Type := DB -> DB * (Error + A).

Definition ret {A} (a : A) : M A := fun s => (s, inr a).
Definition throw {A} (e : Error) : M A := fun s => (s, inl e).
Definition bind {A B} (m : M A) (k : A -> M B) : M B :=
  fun s => match m s with
           | (s', inl e) => (s', inl e)
           | (s', inr a) => k a s'
           end.
Definition gets {A} (f : DB -> A) : M A := fun s => (s, inr (f s)).
Definition modify (f : DB -> DB) : M unit := fun s => (f s, inr tt).

Declare Scope handler_scope.
Delimit Scope handler_scope with handler.
Notation "x <- m ;; k" := (bind m (fun x => k))
  (at level 100, m at level 99, k at level 100, right associativity)
  : handler_scope.
Notation "m ;;; k" := (bind m (fun _ => k))
  (at level 100, k at level 100, right associativity) : handler_scope.
Bind Scope handler_scope with M.
Open Scope handler_scope.

Inductive Body :=
| SendError (error : string)
| SendRegistered (id : ObjectId) (name email : string) (balance : Z)
                 (token : ObjectId)
| SendOrder (orderId : string) (amount : Z) (currency : string)
| SendSuccess (message : string)
| SendTeamCreated (teamId : ObjectId) (message : string)
| SendTeams (docs : list (Team.t * option (ObjectId * string))).

Record Response := mkResponse { status : nat; body : Body }.

(** [res.send(b)] and [res.status(n).send(b)] *)
Definition send (b : Body) : Response := mkResponse 200 b.
Definition status_send (n : nat) (b : Body) : Response := mkResponse n b.

(** [try { ... } catch (error) { res.status(n).send({ error: error.message }) }] *)
Definition try_catch (n : nat) (m : M Response) : DB -> DB * Response :=
  fun s => match m s with
           | (s', inr r) => (s', r)
           | (s', inl e) => (s', status_send n (SendError (message e)))
           end.

(** The [authenticate] middleware.  [auth] is the user id the token
    decodes to, or [None] when the header is missing or [jwt.verify]
    throws. *)
Definition authenticate (auth : option ObjectId)
    (next : User.t -> DB -> DB * Response) : DB -> DB * Response :=
  fun s =>
    match auth with
    | None => (s, status_send 401 (SendError "Please authenticate"))
    | Some userId =>
        match findById User._id userId (users s) with
        | None => (s, status_send 401 (SendError "Please authenticate"))
        | Some user => next user s
        end
    end.

(** What the process reads from outside while handling one request. *)
Record Env := mkEnv { now : Z; new_oid : ObjectId }.

(** ** Routes *)

(** [POST /api/register].  [hashedPassword] is the result of
    [bcrypt.hash(password, 10)]; the token signs the new user's id.  A
    request on which [bcrypt.hash] throws (one without a password, for a
    new email) is answered 400 and stores nothing; it is not a request
    of this model. *)
Definition register (e : Env) (name email phone hashedPassword : string)
  : DB -> DB * Response :=
  try_catch 400 (
    existingUser <- gets (fun s =>
      find (fun u => String.eqb (User.email u) email) (users s)) ;;
    match existingUser with
    | Some _ => ret (status_send 400 (SendError "User already exists"))
    | None =>
        let user := User.mk (new_oid e) name email phone hashedPassword
                            100 0 0 false (now e) in
        modify (set_users (insertOne user)) ;;;
        ret (status_send 201
               (SendRegistered (User._id user) (User.name user)
                  (User.email user) (User.balance user) (User._id user)))
    end).

(** [POST /api/create-order].  [gateway] is the outcome of
    [razorpay.orders.create]: the order id, or the message of the error
    it threw.  The [key] field of the response is left out, and the
    order's [amount] and [currency] are taken to be the ones of the
    options sent. *)
Definition create_order (e : Env) (auth : option ObjectId) (amount : Z)
    (gateway : string + string) : DB -> DB * Response :=
  authenticate auth (fun user =>
    try_catch 500 (
      order_id <- match gateway with
                  | inl m => throw (GatewayError m)
                  | inr i => ret i
                  end ;;
      let payment := Payment.mk (new_oid e) (User._id user) order_id None
                                amount "created" (now e) in
      modify (set_payments (insertOne payment)) ;;;
      ret (send (SendOrder order_id (amount * 100) "INR")))).

(** [POST /api/verify-payment] *)
Definition verify_payment (auth : option ObjectId) (orderId paymentId : string)
  : DB -> DB * Response :=
  authenticate auth (fun user =>
    try_catch 500 (
      payment <- gets (fun s =>
        find (fun p => String.eqb (Payment.orderId p) orderId) (payments s)) ;;
      match payment with
      | Some payment =>
          modify (set_payments
            (updateById Payment._id (Payment._id payment)
               (Payment.complete paymentId))) ;;;
          modify (set_users
            (updateById User._id (User._id user)
               (User.inc_balance (Payment.amount payment)))) ;;;
          ret (send (SendSuccess "Payment successful"))
      | None => ret (status_send 400 (SendError "Payment not found"))
      end)).

(** Reading [contest.entryFee]: a [TypeError] when [findById] gave
    [null]. *)
Definition get_entryFee (contest : option Contest.t) : M Z :=
  match contest with
  | Some c => ret (Contest.entryFee c)
  | None =>
      throw (TypeError "Cannot read properties of null (reading 'entryFee')")
  end.

(** [POST /api/create-team] *)
Definition create_team (e : Env) (auth : option ObjectId)
    (contestId : ObjectId) (matchId teamName : string)
    (players : list Player.t) (captain viceCaptain : string)
  : DB -> DB * Response :=
  authenticate auth (fun user =>
    try_catch 500 (
      contest <- gets (fun s => findById Contest._id contestId (contests s)) ;;
      entryFee <- get_entryFee contest ;;
      if User.balance user <? entryFee then
        ret (status_send 400 (SendError "Insufficient balance"))
      else
        let team := Team.mk (new_oid e) (User._id user) contestId matchId
                            teamName captain viceCaptain players 0 None
                            (now e) in
        modify (set_teams (insertOne team)) ;;;
        modify (set_users
          (updateById User._id (User._id user)
             (User.inc_balance_contests (- entryFee) 1))) ;;;
        modify (set_contests
          (updateById Contest._id contestId (Contest.inc_joinedTeams 1))) ;;;
        ret (status_send 201
               (SendTeamCreated (Team._id team) "Team created successfully")))).

(** [.sort({ totalPoints: -1 })]: descending by [totalPoints].  The sort
    is given no second key; documents with equal [totalPoints] keep the
    collection's order here. *)
Fixpoint insert_desc (x : Team.t) (l : list Team.t) : list Team.t :=
  match l with
  | [] => [x]
  | y :: r => if Team.totalPoints y <=? Team.totalPoints x
              then x :: y :: r
              else y :: insert_desc x r
  end.

Definition sort_totalPoints_desc (l : list Team.t) : list Team.t :=
  fold_right insert_desc [] l.

(** [.populate('userId', 'name')] *)
Definition populate (us : list User.t) (d : Team.t)
  : Team.t * option (ObjectId * string) :=
  (d, option_map (fun u => (User._id u, User.name u))
        (findById User._id (Team.userId d) us)).

(** [teams.forEach((team, index) => { team.rank = index + 1; })] *)
Fixpoint forEach_rank (index : Z)
    (l : list (Team.t * option (ObjectId * string)))
  : list (Team.t * option (ObjectId * string)) :=
  match l with
  | [] => []
  | (team, owner) :: r =>
      (Team.set_rank (index + 1) team, owner) :: forEach_rank (index + 1) r
  end.

(** [Team.find({ contestId })] *)
Definition find_teams (contestId : ObjectId) (l : list Team.t) : list Team.t :=
  filter (fun d => Nat.eqb (Team.contestId d) contestId) l.

(** [GET /api/leaderboard/:contestId] *)
Definition leaderboard (contestId : ObjectId) : DB -> DB * Response :=
  try_catch 500 (
    found <- gets (fun s =>
      map (populate (users s))
        (firstn 100 (sort_totalPoints_desc (find_teams contestId (teams s))))) ;;
    ret (send (SendTeams (forEach_rank 0 found)))).

(** [POST /api/withdraw] *)
Definition withdraw (auth : option ObjectId) (amount : Z) (upiId : string)
  : DB -> DB * Response :=
  authenticate auth (fun user =>
    try_catch 500 (
      if amount <? 100 then
        ret (status_send 400 (SendError "Minimum withdrawal ₹100"))
      else if User.balance user <? amount then
        ret (status_send 400 (SendError "Insufficient balance"))
      else
        modify (set_users
          (updateById User._id (User._id user) (User.inc_balance (- amount)))) ;;;
        ret (send (SendSuccess
          "Withdrawal request submitted. Processed within 24 hours.")))).

(** ** Sequences of requests *)

Inductive Request :=
| Register (name email phone hashedPassword : string)
| CreateOrder (auth : option ObjectId) (amount : Z) (gateway : string + string)
| VerifyPayment (auth : option ObjectId) (orderId paymentId : string)
| CreateTeam (auth : option ObjectId) (contestId : ObjectId)
             (matchId teamName : string) (players : list Player.t)
             (captain viceCaptain : string)
| Leaderboard (contestId : ObjectId)
| Withdraw (auth : option ObjectId) (amount : Z) (upiId : string).

Definition handle (e : Env) (r : Request) : DB -> DB * Response :=
  match r with
  | Register n em ph pw => register e n em ph pw
  | CreateOrder a amt g => create_order e a amt g
  | VerifyPayment a o p => verify_payment a o p
  | CreateTeam a c m t ps cap vc => create_team e a c m t ps cap vc
  | Leaderboard c => leaderboard c
  | Withdraw a amt upi => withdraw a amt upi
  end.

(** The database after each request of a sequence, in order. *)
Fixpoint states (rs : list (Env * Request)) (s : DB) : list DB :=
  match rs with
  | [] => []
  | (e, r) :: rest => let s' := fst (handle e r s) in s' :: states rest s'
  end.

(** The database after the whole sequence. *)
Definition run (rs : list (Env * Request)) (s : DB) : DB :=
  fold_left (fun s er => fst (handle (fst er) (snd er) s)) rs s.

(** ** Observations and invariants *)

Definition balance_of (userId : ObjectId) (s : DB) : option Z :=
  option_map User.balance (findById User._id userId (users s)).

Definition contest_of (contestId : ObjectId) (s : DB) : option Contest.t :=
  findById Contest._id contestId (contests s).

Definition find_order (orderId : string) (s : DB) : option Payment.t :=
  find (fun p => String.eqb (Payment.orderId p) orderId) (payments s).

Definition balances_nonneg (s : DB) : Prop :=
  Forall (fun u => 0 <= User.balance u) (users s).

Definition amounts_nonneg (s : DB) : Prop :=
  Forall (fun p => 0 <= Payment.amount p) (payments s).

Definition joined_nonneg (s : DB) : Prop :=
  Forall (fun c => 0 <= Contest.joinedTeams c) (contests s).

(** The amount of a [create-order] request is not negative. *)
Definition order_nonneg (r : Request) : Prop :=
  match r with
  | CreateOrder _ amount _ => 0 <= amount
  | _ => True
  end.

(** Descending by [totalPoints]. *)
Definition points_desc (a b : Team.t) : Prop :=
  Team.totalPoints b <= Team.totalPoints a.

(** A team document without its [rank] field. *)
Definition without_rank (d : Team.t) : Team.t :=
  Team.mk (Team._id d) (Team.userId d) (Team.contestId d) (Team.matchId d)
          (Team.teamName d) (Team.captain d) (Team.viceCaptain d)
          (Team.players d) (Team.totalPoints d) None (Team.createdAt d).

Definition sent_teams (r : Response)
  : list (Team.t * option (ObjectId * string)) :=
  match body r with
  | SendTeams docs => docs
  | _ => []
  end.

(** ** Sample data *)

Module Sample.
Definition alice : User.t :=
  User.mk 1 "Alice" "alice@example.com" "9000000001" "hash-a" 100 0 0
          false 0.
Definition bob : User.t :=
  User.mk 2 "Bob" "bob@example.com" "9000000002" "hash-b" 100 0 0
          false 0.
Definition carol : User.t :=
  User.mk 3 "Carol" "carol@example.com" "9000000003" "hash-c" 50 0 0
          false 0.

(** entryFee 100, maxTeams 1, joinedTeams 0, active *)
Definition head_to_head : Contest.t :=
  Contest.mk 10 "match-1" "Head to head" 100 180 1 0
             [Contest.mkTier 1 1 180] true 0.
(** entryFee 0 *)
Definition free_contest : Contest.t :=
  Contest.mk 11 "match-1" "Practice" 0 0 100 0 [] true 0.
(** entryFee -10 *)
Definition negative_fee : Contest.t :=
  Contest.mk 12 "match-1" "Bonus" (-10) 0 100 0 [] true 0.
(** full and closed: maxTeams 2, joinedTeams 2, inactive *)
Definition closed_full : Contest.t :=
  Contest.mk 13 "match-1" "Closed" 20 30 2 2 [] false 0.

Definition db0 : DB :=
  mkDB [alice; bob; carol]
       [head_to_head; free_contest; negative_fee; closed_full] [] [].

Definition env (n : nat) : Env := mkEnv (Z.of_nat n) (100 + n).

Definition eleven : list Player.t :=
  map (fun i => Player.mk (String.string_of_list_ascii
                             [Ascii.ascii_of_nat (65 + i)])
                          "Player" "BAT" 0)
      (seq 0 11).

(** Alice has ordered 500 at the gateway. *)
Definition db_ordered : DB :=
  fst (create_order (env 1) (Some 1%nat) 500 (inr "order_1") db0).

(** Alice's order is confirmed once. *)
Definition db_confirmed : DB :=
  fst (verify_payment (Some 1%nat) "order_1" "pay_1" db_ordered).

(** A stored payment record of Bob with a negative amount, and one of
    Bob with amount 0. *)
Definition db_odd_payments : DB :=
  mkDB [alice; bob; carol]
       [head_to_head; free_contest; negative_fee; closed_full] []
       [Payment.mk 50 2 "order_neg" None (-500) "created" 0;
        Payment.mk 51 2 "order_bob" None 40 "created" 0].

(** Alice has joined the one-slot contest. *)
Definition db_joined : DB :=
  fst (create_team (env 2) (Some 1%nat) 10%nat "match-1" "Alice XI" eleven
         "A" "B" db0).

(** 101 teams in contest 10, team [i] with [i] points. *)
Definition db_101 : DB :=
  mkDB [alice; bob; carol] [head_to_head]
       (map (fun i => Team.mk (200 + i) 1 10 "match-1" "Team" "A" "B" []
                              (Z.of_nat i) None (Z.of_nat i))
            (seq 1 101))
       [].
End Sample.

(** ** Routes that only read *)

Module Match.
Record t := mk {
  _id : ObjectId;
  matchId : string;
  team1 : string;
  team2 : string;
  date : Z;
  time : string;
  venue : string;
  status : string;
  result : string
}.
End Match.

(** What a read-only route sends: a payload with its status, or
    [{ error }] with its status. *)
Inductive Reply (A : Type) : Type :=
| Sent (code : nat) (payload : A)
| Failed (code : nat) (error : string).
Arguments Sent {A} code payload.
Arguments Failed {A} code error.

(** [authenticate] in front of a read-only route. *)
Definition authenticated {A} (auth : option ObjectId)
    (next : User.t -> Reply A) (s : DB) : Reply A :=
  match auth with
  | None => Failed 401 "Please authenticate"
  | Some userId =>
      match findById User._id userId (users s) with
      | None => Failed 401 "Please authenticate"
      | Some user => next user
      end
  end.

Section SortBy.
Context {D : Type} (key : D -> Z).

Fixpoint insert_asc (x : D) (l : list D) : list D :=
  match l with
  | [] => [x]
  | y :: r => if key x <=? key y then x :: y :: r else y :: insert_asc x r
  end.

(** [.sort({ key: 1 })]; documents with equal keys keep the collection's
    order. *)
Definition sort_asc (l : list D) : list D := fold_right insert_asc [] l.

(** Ascending by [key]. *)
Definition key_asc (a b : D) : Prop := key a <= key b.
End SortBy.

(** [.sort({ key: -1 })] *)
Definition sort_desc {D : Type} (key : D -> Z) (l : list D) : list D :=
  sort_asc (fun d => - key d) l.

Record LoginReply := mkLoginReply {
  login_id : ObjectId;
  login_name : string;
  login_email : string;
  login_balance : Z;
  login_totalWinning : Z;
  login_token : ObjectId
}.

(** [POST /api/login].  [compare] is [bcrypt.compare]: it returns
    whether the password matches the hash, or throws (it does on a
    password that is not a string) and the [catch] answers 400 with the
    thrown message. *)
Definition login (compare : string -> string -> string + bool)
    (email password : string) (s : DB) : Reply LoginReply :=
  match find (fun u => String.eqb (User.email u) email) (users s) with
  | None => Failed 400 "Invalid credentials"
  | Some user =>
      match compare password (User.password user) with
      | inl thrown => Failed 400 thrown
      | inr true =>
          Sent 200 (mkLoginReply (User._id user) (User.name user)
                      (User.email user) (User.balance user)
                      (User.totalWinning user) (User._id user))
      | inr false => Failed 400 "Invalid credentials"
      end
  end.



(** [GET /api/matches], over the Match collection. *)
Definition get_matches (ms : list Match.t) : Reply (list Match.t) :=
  Sent 200
    (firstn 20
       (sort_asc Match.date
          (filter (fun m => String.eqb (Match.status m) "upcoming") ms))).

(** [GET /api/contests/:matchId] *)
Definition get_contests (matchId : string) (s : DB) : Reply (list Contest.t) :=
  Sent 200
    (sort_asc Contest.entryFee
       (filter (fun c => String.eqb (Contest.matchId c) matchId
                         && Contest.isActive c)
          (contests s))).

(** [.populate('contestId')] *)
Definition populate_contest (cs : list Contest.t) (d : Team.t)
  : Team.t * option Contest.t :=
  (d, findById Contest._id (Team.contestId d) cs).

(** [GET /api/my-teams] *)
Definition my_teams (auth : option ObjectId) (s : DB)
  : Reply (list (Team.t * option Contest.t)) :=
  authenticated auth (fun user =>
    Sent 200
      (map (populate_contest (contests s))
         (sort_desc Team.createdAt
            (filter (fun d => Nat.eqb (Team.userId d) (User._id user))
               (teams s))))) s.

(** [Payment.aggregate([{ $match: { status: 'completed' } },
    { $group: { _id: null, total: { $sum: '$amount' } } }])]: one group
    when a payment matches, none otherwise. *)
Definition aggregate_completed (ps : list Payment.t) : list Z :=
  match filter (fun p => String.eqb (Payment.status p) "completed") ps with
  | [] => []
  | matched => [fold_right Z.add 0 (map Payment.amount matched)]
  end.

(** [totalDeposits[0]?.total || 0] *)
Definition totalDeposits (s : DB) : Z :=
  match aggregate_completed (payments s) with
  | [] => 0
  | total :: _ => if total =? 0 then 0 else total
  end.

Record AdminReply := mkAdminReply {
  admin_users_list : list User.t;
  admin_totalUsers : nat;
  admin_totalDeposits : Z;
  admin_activeToday : Z
}.

(** [GET /api/admin/users] *)
Definition admin_users (auth : option ObjectId) (s : DB) : Reply AdminReply :=
  authenticated auth (fun user =>
    if negb (String.eqb (User.email user) "admin@fantasy.com") then
      Failed 403 "Access denied"
    else
      Sent 200 (mkAdminReply (sort_desc User.createdAt (users s))
                  (List.length (users s)) (totalDeposits s) 0)) s.

(** ** The handler of [create-team] behind its middleware *)

(** The body of [POST /api/create-team], given the [req.user] that
    [authenticate] loaded. *)
Definition create_team_handler (e : Env) (user : User.t)
    (contestId : ObjectId) (matchId teamName : string)
    (players : list Player.t) (captain viceCaptain : string)
  : DB -> DB * Response :=
  try_catch 500 (
    contest <- gets (fun s => findById Contest._id contestId (contests s)) ;;
    entryFee <- get_entryFee contest ;;
    if User.balance user <? entryFee then
      ret (status_send 400 (SendError "Insufficient balance"))
    else
      let team := Team.mk (new_oid e) (User._id user) contestId matchId
                          teamName captain viceCaptain players 0 None
                          (now e) in
      modify (set_teams (insertOne team)) ;;;
      modify (set_users
        (updateById User._id (User._id user)
           (User.inc_balance_contests (- entryFee) 1))) ;;;
      modify (set_contests
        (updateById Contest._id contestId (Contest.inc_joinedTeams 1))) ;;;
      ret (status_send 201
             (SendTeamCreated (Team._id team) "Team created successfully"))).

(** ** More observations *)

(** The token a request carries, for the routes behind [authenticate]. *)
Definition token_of (r : Request) : option (option ObjectId) :=
  match r with
  | Register _ _ _ _ => None
  | CreateOrder auth _ _ => Some auth
  | VerifyPayment auth _ _ => Some auth
  | CreateTeam auth _ _ _ _ _ _ => Some auth
  | Leaderboard _ => None
  | Withdraw auth _ _ => Some auth
  end.

(** The sum of the amounts of the completed payments. *)
Definition completed_sum (ps : list Payment.t) : Z :=
  fold_right Z.add 0
    (map Payment.amount
       (filter (fun p => String.eqb (Payment.status p) "completed") ps)).

(** How many stored teams name the contest, and how many the user. *)
Definition teams_in (contestId : ObjectId) (s : DB) : Z :=
  Z.of_nat (List.length (find_teams contestId (teams s))).

Definition teams_of (userId : ObjectId) (s : DB) : Z :=
  Z.of_nat (List.length
    (filter (fun d => Nat.eqb (Team.userId d) userId) (teams s))).

Definition emails (s : DB) : list string := map User.email (users s).

(** A [bcrypt.compare] for examples: the hash of [p] is ["hash:" ++ p]. *)
Definition sample_compare (password hashed : string) : string + bool :=
  inr (String.eqb ("hash:" ++ password) hashed).

(** A [bcrypt.compare] for examples that throws, as on a request
    without a password. *)
Definition sample_compare_throws (password hashed : string) : string + bool :=
  inl "Illegal arguments: undefined, string".

(** The two ways out of [authenticate] with a 401, then the handler. *)
Ltac auth_cases auth s :=
  unfold authenticate;
  destruct auth as [userId|]; [|simpl; auto];
  destruct (findById User._id userId (users s)) as [user|] eqn:Hu;
  [|simpl; auto].

(** ** Facts about collections *)

Section CollectionFacts.
Context {D : Type} (id_of : D -> ObjectId).

Lemma findById_id (i : ObjectId) (l : list D) (d : D) :
  findById id_of i l = Some d -> id_of d = i.
Proof.
  unfold findById. intros H. apply find_some in H.
  destruct H as [_ H]. now apply Nat.eqb_eq in H.
Qed.

Lemma findById_In (i : ObjectId) (l : list D) (d : D) :
  findById id_of i l = Some d -> In d l.
Proof.
  unfold findById. intros H. now apply find_some in H.
Qed.

Lemma findById_updateById_same (i : ObjectId) (upd : D -> D) (l : list D)
    (d : D) :
  findById id_of i l = Some d ->
  id_of (upd d) = id_of d ->
  findById id_of i (updateById id_of i upd l) = Some (upd d).
Proof.
  unfold findById. induction l as [|x r IH]; simpl; intros Hf Hid.
  - discriminate.
  - destruct (Nat.eqb (id_of x) i) eqn:E; simpl.
    + injection Hf as ->. now rewrite Hid, E.
    + rewrite E. now apply IH.
Qed.

Lemma findById_updateById_other (i j : ObjectId) (upd : D -> D)
    (l : list D) :
  (forall x, id_of (upd x) = id_of x) ->
  j <> i ->
  findById id_of j (updateById id_of i upd l) = findById id_of j l.
Proof.
  unfold findById. intros Hid Hne.
  induction l as [|x r IH]; simpl; [reflexivity|].
  destruct (Nat.eqb (id_of x) i) eqn:E; simpl.
  - rewrite Hid. apply Nat.eqb_eq in E.
    assert (Nat.eqb (id_of x) j = false) as ->
      by (apply Nat.eqb_neq; congruence).
    reflexivity.
  - now rewrite IH.
Qed.

Lemma find_updateById (P : D -> bool) (i : ObjectId) (upd : D -> D)
    (l : list D) (d : D) :
  (forall x, P (upd x) = P x) ->
  find P l = Some d ->
  find P (updateById id_of i upd l) = Some d \/
  find P (updateById id_of i upd l) = Some (upd d).
Proof.
  intros HP. induction l as [|x r IH]; simpl; intros Hf.
  - discriminate.
  - destruct (Nat.eqb (id_of x) i); simpl.
    + rewrite HP. destruct (P x).
      * injection Hf as ->. now right.
      * now left.
    + destruct (P x); [now left | now apply IH].
Qed.

Lemma Forall_updateById (Q : D -> Prop) (i : ObjectId) (upd : D -> D)
    (l : list D) (d : D) :
  findById id_of i l = Some d ->
  Forall Q l -> Q (upd d) ->
  Forall Q (updateById id_of i upd l).
Proof.
  unfold findById. induction l as [|x r IH]; simpl; intros Hf HQ Hd.
  - constructor.
  - inversion HQ as [|? ? Hx Hr]; subst.
    destruct (Nat.eqb (id_of x) i).
    + injection Hf as ->. now constructor.
    + constructor; [assumption | now apply IH].
Qed.

Lemma Forall_updateById_all (Q : D -> Prop) (i : ObjectId) (upd : D -> D)
    (l : list D) :
  (forall x, Q x -> Q (upd x)) ->
  Forall Q l -> Forall Q (updateById id_of i upd l).
Proof.
  intros Hupd. induction 1 as [|x r Hx Hr IH]; simpl.
  - constructor.
  - destruct (Nat.eqb (id_of x) i); constructor; auto.
Qed.

Lemma length_updateById (i : ObjectId) (upd : D -> D) (l : list D) :
  List.length (updateById id_of i upd l) = List.length l.
Proof.
  induction l as [|x r IH]; simpl; [reflexivity|].
  destruct (Nat.eqb (id_of x) i); simpl; congruence.
Qed.

Lemma updateById_absent (i : ObjectId) (upd : D -> D) (l : list D) :
  findById id_of i l = None -> updateById id_of i upd l = l.
Proof.
  unfold findById. induction l as [|x r IH]; simpl; [reflexivity|].
  destruct (Nat.eqb (id_of x) i); [discriminate|].
  intros H. now rewrite IH.
Qed.
End CollectionFacts.

(** ** What each route does, case by case *)

Lemma verify_payment_found (s : DB) (userId : ObjectId) (user : User.t)
    (orderId paymentId : string) (payment : Payment.t) :
  findById User._id userId (users s) = Some user ->
  find (fun p => String.eqb (Payment.orderId p) orderId) (payments s)
    = Some payment ->
  verify_payment (Some userId) orderId paymentId s =
  (mkDB (updateById User._id (User._id user)
           (User.inc_balance (Payment.amount payment)) (users s))
        (contests s) (teams s)
        (updateById Payment._id (Payment._id payment)
           (Payment.complete paymentId) (payments s)),
   send (SendSuccess "Payment successful")).
Proof.
  intros Hu Hp.
  unfold verify_payment, authenticate. rewrite Hu.
  unfold try_catch, bind, gets. rewrite Hp. reflexivity.
Qed.

Lemma create_team_missing (e : Env) (s : DB) (userId : ObjectId)
    (user : User.t) (contestId : ObjectId) (matchId teamName : string)
    (players : list Player.t) (captain viceCaptain : string) :
  findById User._id userId (users s) = Some user ->
  findById Contest._id contestId (contests s) = None ->
  create_team e (Some userId) contestId matchId teamName players captain
    viceCaptain s =
  (s, status_send 500
        (SendError "Cannot read properties of null (reading 'entryFee')")).
Proof.
  intros Hu Hc.
  unfold create_team, authenticate. rewrite Hu.
  unfold try_catch, bind, gets. rewrite Hc. reflexivity.
Qed.

Lemma create_team_insufficient (e : Env) (s : DB) (userId : ObjectId)
    (user : User.t) (contestId : ObjectId) (contest : Contest.t)
    (matchId teamName : string) (players : list Player.t)
    (captain viceCaptain : string) :
  findById User._id userId (users s) = Some user ->
  findById Contest._id contestId (contests s) = Some contest ->
  User.balance user < Contest.entryFee contest ->
  create_team e (Some userId) contestId matchId teamName players captain
    viceCaptain s =
  (s, status_send 400 (SendError "Insufficient balance")).
Proof.
  intros Hu Hc Hlt.
  unfold create_team, authenticate. rewrite Hu.
  unfold try_catch, bind, gets. rewrite Hc. simpl.
  apply Z.ltb_lt in Hlt. rewrite Hlt. reflexivity.
Qed.

Lemma create_team_funded (e : Env) (s : DB) (userId : ObjectId)
    (user : User.t) (contestId : ObjectId) (contest : Contest.t)
    (matchId teamName : string) (players : list Player.t)
    (captain viceCaptain : string) :
  findById User._id userId (users s) = Some user ->
  findById Contest._id contestId (contests s) = Some contest ->
  Contest.entryFee contest <= User.balance user ->
  create_team e (Some userId) contestId matchId teamName players captain
    viceCaptain s =
  (mkDB (updateById User._id (User._id user)
           (User.inc_balance_contests (- Contest.entryFee contest) 1)
           (users s))
        (updateById Contest._id contestId (Contest.inc_joinedTeams 1)
           (contests s))
        (teams s ++
           [Team.mk (new_oid e) (User._id user) contestId matchId teamName
                    captain viceCaptain players 0 None (now e)])
        (payments s),
   status_send 201 (SendTeamCreated (new_oid e) "Team created successfully")).
Proof.
  intros Hu Hc Hge.
  unfold create_team, authenticate. rewrite Hu.
  unfold try_catch, bind, gets. rewrite Hc. simpl.
  assert ((User.balance user <? Contest.entryFee contest) = false) as ->
    by (apply Z.ltb_ge; exact Hge).
  reflexivity.
Qed.

Lemma withdraw_cases (s : DB) (userId : ObjectId) (user : User.t)
    (amount : Z) (upiId : string) :
  findById User._id userId (users s) = Some user ->
  withdraw (Some userId) amount upiId s =
  if amount <? 100 then
    (s, status_send 400 (SendError "Minimum withdrawal ₹100"))
  else if User.balance user <? amount then
    (s, status_send 400 (SendError "Insufficient balance"))
  else
    (set_users (updateById User._id (User._id user)
                  (User.inc_balance (- amount))) s,
     send (SendSuccess
       "Withdrawal request submitted. Processed within 24 hours.")).
Proof.
  intros Hu. unfold withdraw, authenticate. rewrite Hu.
  unfold try_catch.
  destruct (amount <? 100); [reflexivity|].
  destruct (User.balance user <? amount); reflexivity.
Qed.

Lemma balance_of_found (s : DB) (userId : ObjectId) (user : User.t) :
  findById User._id userId (users s) = Some user ->
  balance_of userId s = Some (User.balance user).
Proof. unfold balance_of. now intros ->. Qed.

Lemma balance_of_inc (l : list User.t) (userId : ObjectId) (user : User.t)
    (d : Z) (cs : list Contest.t) (ts : list Team.t) (ps : list Payment.t) :
  findById User._id userId l = Some user ->
  balance_of userId
    (mkDB (updateById User._id (User._id user) (User.inc_balance d) l)
          cs ts ps)
  = Some (User.balance user + d).
Proof.
  intros Hu. unfold balance_of; simpl.
  rewrite (findById_id _ _ _ _ Hu).
  now rewrite (findById_updateById_same User._id userId
                 (User.inc_balance d) l user Hu eq_refl).
Qed.

Lemma balance_of_inc_contests (l : list User.t) (userId : ObjectId)
    (user : User.t) (d n : Z) (cs : list Contest.t) (ts : list Team.t)
    (ps : list Payment.t) :
  findById User._id userId l = Some user ->
  balance_of userId
    (mkDB (updateById User._id (User._id user)
             (User.inc_balance_contests d n) l) cs ts ps)
  = Some (User.balance user + d).
Proof.
  intros Hu. unfold balance_of; simpl.
  rewrite (findById_id _ _ _ _ Hu).
  now rewrite (findById_updateById_same User._id userId
                 (User.inc_balance_contests d n) l user Hu eq_refl).
Qed.

(** After a confirmation the order is still found, with its amount. *)
Lemma find_order_after_complete (l : list Payment.t) (orderId pid : string)
    (i : ObjectId) (payment : Payment.t) :
  find (fun p => String.eqb (Payment.orderId p) orderId) l = Some payment ->
  exists payment',
    find (fun p => String.eqb (Payment.orderId p) orderId)
      (updateById Payment._id i (Payment.complete pid) l) = Some payment' /\
    Payment.amount payment' = Payment.amount payment.
Proof.
  intros Hf.
  destruct (find_updateById Payment._id
              (fun p => String.eqb (Payment.orderId p) orderId) i
              (Payment.complete pid) l payment (fun _ => eq_refl) Hf)
    as [H | H]; eexists; (split; [exact H | reflexivity]).
Qed.

(** ** Payment confirmation *)

(** C1, as stated, fails: Alice's order of 500 is confirmed (its record
    has status ["completed"], her balance went from 100 to 600), and the
    same confirmation sent again succeeds and raises her balance to
    1100. *)
Lemma confirm_twice_credits_twice :
  option_map Payment.status (find_order "order_1" Sample.db_confirmed)
    = Some "completed" /\
  balance_of 1 Sample.db_ordered = Some 100 /\
  balance_of 1 Sample.db_confirmed = Some 600 /\
  snd (verify_payment (Some 1%nat) "order_1" "pay_1" Sample.db_confirmed)
    = send (SendSuccess "Payment successful") /\
  balance_of 1
    (fst (verify_payment (Some 1%nat) "order_1" "pay_1" Sample.db_confirmed))
    = Some 1100.
Proof. vm_compute. repeat split; reflexivity. Qed.

(** C1, amended: [verify-payment] does not read the record's status.  For
    an authenticated caller and an order that exists, whatever the
    record's status, every call answers success and adds the recorded
    amount to the caller's balance; two calls with the same order and
    payment reference add it twice. *)
Theorem confirm_credits_on_every_call (s : DB) (userId : ObjectId)
    (user : User.t) (orderId paymentId : string) (payment : Payment.t) :
  findById User._id userId (users s) = Some user ->
  find_order orderId s = Some payment ->
  let first := verify_payment (Some userId) orderId paymentId s in
  let second := verify_payment (Some userId) orderId paymentId (fst first) in
  snd first = send (SendSuccess "Payment successful") /\
  balance_of userId (fst first)
    = Some (User.balance user + Payment.amount payment) /\
  snd second = send (SendSuccess "Payment successful") /\
  balance_of userId (fst second)
    = Some (User.balance user + 2 * Payment.amount payment).
Proof.
  intros Hu Hp first second.
  assert (Hfirst := verify_payment_found s userId user orderId paymentId
                      payment Hu Hp).
  fold first in Hfirst.
  assert (Hid := findById_id _ _ _ _ Hu).
  assert (Hu1 : findById User._id userId (users (fst first))
                = Some (User.inc_balance (Payment.amount payment) user)).
  { rewrite Hfirst; simpl. rewrite Hid.
    now apply findById_updateById_same. }
  destruct (find_order_after_complete (payments s) orderId paymentId
              (Payment._id payment) payment Hp) as (payment' & Hp1 & Hamt).
  assert (Hp1' : find (fun p => String.eqb (Payment.orderId p) orderId)
                   (payments (fst first)) = Some payment')
    by (rewrite Hfirst; exact Hp1).
  assert (Hsecond := verify_payment_found (fst first) userId _ orderId
                       paymentId payment' Hu1 Hp1').
  fold second in Hsecond.
  repeat split.
  - now rewrite Hfirst.
  - rewrite Hfirst. simpl fst. now apply balance_of_inc.
  - now rewrite Hsecond.
  - rewrite Hsecond. simpl fst.
    rewrite (balance_of_inc _ userId _ _ _ _ _ Hu1).
    rewrite Hamt. unfold User.inc_balance, User.balance. f_equal. lia.
Qed.

Lemma confirm_credits_on_every_call_witness :
  findById User._id 1 (users Sample.db_confirmed)
    = Some (User.mk 1 "Alice" "alice@example.com" "9000000001" "hash-a"
                    600 0 0 false 0) /\
  balance_of 1
    (fst (verify_payment (Some 1%nat) "order_1" "pay_1"
       (fst (verify_payment (Some 1%nat) "order_1" "pay_1"
               Sample.db_confirmed))))
    = Some (600 + 2 * 500).
Proof.
  split; [reflexivity|].
  apply (confirm_credits_on_every_call Sample.db_confirmed 1
           (User.mk 1 "Alice" "alice@example.com" "9000000001" "hash-a"
                    600 0 0 false 0)
           "order_1" "pay_1"
           (Payment.mk 101 1 "order_1" (Some "pay_1") 500 "completed" 1));
    reflexivity.
Defined.

(** C6: [verify-payment] credits [req.user], not the user the payment
    record names.  When the two differ, the caller's balance grows by the
    recorded amount and the record owner's balance stays as it was. *)
Theorem confirm_credits_the_caller (s : DB) (caller : ObjectId)
    (user : User.t) (orderId paymentId : string) (payment : Payment.t) :
  findById User._id caller (users s) = Some user ->
  find_order orderId s = Some payment ->
  Payment.userId payment <> caller ->
  let s' := fst (verify_payment (Some caller) orderId paymentId s) in
  balance_of caller s' = Some (User.balance user + Payment.amount payment) /\
  balance_of (Payment.userId payment) s'
    = balance_of (Payment.userId payment) s.
Proof.
  intros Hu Hp Hne s'. subst s'.
  rewrite (verify_payment_found s caller user orderId paymentId payment Hu Hp).
  simpl fst. split.
  - now apply balance_of_inc.
  - unfold balance_of; simpl.
    rewrite findById_updateById_other; [reflexivity | reflexivity |].
    now rewrite (findById_id _ _ _ _ Hu).
Qed.

Lemma confirm_credits_the_caller_witness :
  Payment.userId (Payment.mk 51 2 "order_bob" None 40 "created" 0) <> 1%nat /\
  balance_of 1
    (fst (verify_payment (Some 1%nat) "order_bob" "pay_9"
            Sample.db_odd_payments)) = Some (100 + 40) /\
  balance_of 2
    (fst (verify_payment (Some 1%nat) "order_bob" "pay_9"
            Sample.db_odd_payments)) = balance_of 2 Sample.db_odd_payments.
Proof.
  split; [simpl; lia|].
  apply (confirm_credits_the_caller Sample.db_odd_payments 1 Sample.alice
           "order_bob" "pay_9"
           (Payment.mk 51 2 "order_bob" None 40 "created" 0));
    [reflexivity | reflexivity | simpl; lia].
Defined.

(** ** Joining a contest *)

Lemma contest_of_inc (l : list Contest.t) (contestId : ObjectId)
    (contest : Contest.t) (us : list User.t) (ts : list Team.t)
    (ps : list Payment.t) :
  findById Contest._id contestId l = Some contest ->
  contest_of contestId
    (mkDB us (updateById Contest._id contestId (Contest.inc_joinedTeams 1) l)
          ts ps)
  = Some (Contest.inc_joinedTeams 1 contest).
Proof.
  intros Hc. unfold contest_of; simpl.
  now rewrite (findById_updateById_same Contest._id contestId
                 (Contest.inc_joinedTeams 1) l contest Hc eq_refl).
Qed.

(** C2, as stated, fails: the one-slot contest (maxTeams 1) already holds
    Alice's team, and Bob's join is answered 201, takes his fee and
    leaves the contest with joinedTeams 2; a join of the contest that is
    full and inactive succeeds as well. *)
Lemma join_full_contest_succeeds :
  option_map Contest.joinedTeams (contest_of 10 Sample.db_joined) = Some 1 /\
  option_map Contest.maxTeams (contest_of 10 Sample.db_joined) = Some 1 /\
  (let r := create_team (Sample.env 3) (Some 2%nat) 10 "match-1" "Bob XI"
              Sample.eleven "A" "B" Sample.db_joined in
   snd r = status_send 201 (SendTeamCreated 103 "Team created successfully") /\
   option_map Contest.joinedTeams (contest_of 10 (fst r)) = Some 2 /\
   balance_of 2 (fst r) = Some 0 /\
   List.length (teams (fst r)) = 2%nat) /\
  (let r := create_team (Sample.env 3) (Some 2%nat) 13 "match-1" "Bob XI"
              Sample.eleven "A" "B" Sample.db0 in
   option_map Contest.isActive (contest_of 13 Sample.db0) = Some false /\
   status (snd r) = 201%nat /\
   option_map Contest.joinedTeams (contest_of 13 (fst r)) = Some 3 /\
   option_map Contest.maxTeams (contest_of 13 (fst r)) = Some 2).
Proof. vm_compute. repeat split; reflexivity. Qed.

(** C2, amended: [create-team] reads neither [maxTeams] nor [isActive].
    Whenever the contest exists and the caller's balance covers the entry
    fee, the join succeeds, also when joinedTeams equals maxTeams or the
    contest is inactive: joinedTeams grows by one (so it stays at least 0
    but can pass maxTeams), maxTeams and isActive stay, the fee is taken
    and one team is added. *)
Theorem join_ignores_capacity (e : Env) (s : DB) (userId : ObjectId)
    (user : User.t) (contestId : ObjectId) (contest : Contest.t)
    (matchId teamName : string) (players : list Player.t)
    (captain viceCaptain : string) :
  findById User._id userId (users s) = Some user ->
  contest_of contestId s = Some contest ->
  Contest.entryFee contest <= User.balance user ->
  let r := create_team e (Some userId) contestId matchId teamName players
             captain viceCaptain s in
  status (snd r) = 201%nat /\
  (exists contest',
     contest_of contestId (fst r) = Some contest' /\
     Contest.joinedTeams contest' = Contest.joinedTeams contest + 1 /\
     Contest.maxTeams contest' = Contest.maxTeams contest /\
     Contest.isActive contest' = Contest.isActive contest /\
     (0 <= Contest.joinedTeams contest -> 0 <= Contest.joinedTeams contest')) /\
  balance_of userId (fst r)
    = Some (User.balance user - Contest.entryFee contest) /\
  List.length (teams (fst r)) = S (List.length (teams s)).
Proof.
  intros Hu Hc Hge r. subst r.
  rewrite (create_team_funded e s userId user contestId contest matchId
             teamName players captain viceCaptain Hu Hc Hge).
  simpl fst; simpl snd.
  split; [reflexivity|]. split; [|split].
  - exists (Contest.inc_joinedTeams 1 contest).
    split; [apply contest_of_inc; exact Hc|].
    simpl. repeat split; lia.
  - rewrite (balance_of_inc_contests _ userId _ _ _ _ _ _ Hu).
    f_equal; lia.
  - simpl. rewrite length_app. simpl. lia.
Qed.

Lemma join_ignores_capacity_witness :
  Contest.entryFee Sample.closed_full <= User.balance Sample.bob /\
  status (snd (create_team (Sample.env 3) (Some 2%nat) 13 "match-1" "Bob XI"
                 Sample.eleven "A" "B" Sample.db0)) = 201%nat.
Proof.
  split; [vm_compute; discriminate|].
  apply (join_ignores_capacity (Sample.env 3) Sample.db0 2 Sample.bob 13
           Sample.closed_full "match-1" "Bob XI" Sample.eleven "A" "B");
    [reflexivity | reflexivity | vm_compute; discriminate].
Defined.

(** C4: a caller whose balance is below the contest's entry fee is
    answered 400 "Insufficient balance" and the database is left exactly
    as it was: the balance, the contest's joinedTeams, the caller's
    totalContests and the stored teams are those of before the call. *)
Theorem join_insufficient_balance_changes_nothing (e : Env) (s : DB)
    (userId : ObjectId) (user : User.t) (contestId : ObjectId)
    (contest : Contest.t) (matchId teamName : string)
    (players : list Player.t) (captain viceCaptain : string) :
  findById User._id userId (users s) = Some user ->
  contest_of contestId s = Some contest ->
  User.balance user < Contest.entryFee contest ->
  let r := create_team e (Some userId) contestId matchId teamName players
             captain viceCaptain s in
  snd r = status_send 400 (SendError "Insufficient balance") /\
  fst r = s /\
  balance_of userId (fst r) = Some (User.balance user) /\
  contest_of contestId (fst r) = Some contest /\
  option_map User.totalContests (findById User._id userId (users (fst r)))
    = Some (User.totalContests user) /\
  teams (fst r) = teams s.
Proof.
  intros Hu Hc Hlt r. subst r.
  rewrite (create_team_insufficient e s userId user contestId contest matchId
             teamName players captain viceCaptain Hu Hc Hlt).
  simpl. repeat split.
  - now apply balance_of_found.
  - exact Hc.
  - now rewrite Hu.
Qed.

Lemma join_insufficient_balance_changes_nothing_witness :
  User.balance Sample.carol < Contest.entryFee Sample.head_to_head /\
  fst (create_team (Sample.env 3) (Some 3%nat) 10 "match-1" "Carol XI"
         Sample.eleven "A" "B" Sample.db0) = Sample.db0.
Proof.
  split; [reflexivity|].
  apply (join_insufficient_balance_changes_nothing (Sample.env 3) Sample.db0
           3 Sample.carol 10 Sample.head_to_head "match-1" "Carol XI"
           Sample.eleven "A" "B"); reflexivity.
Defined.

(** C8, as stated, fails: a team with an empty roster whose captain and
    vice-captain are the same name, a name of no player, is stored as
    sent, answered 201, and the fee is taken. *)
Lemma join_accepts_malformed_team :
  let r := create_team (Sample.env 3) (Some 1%nat) 10 "match-1" "Nobody"
             [] "Z" "Z" Sample.db0 in
  snd r = status_send 201 (SendTeamCreated 103 "Team created successfully") /\
  teams (fst r)
    = [Team.mk 103 1 10 "match-1" "Nobody" "Z" "Z" [] 0 None 3] /\
  balance_of 1 Sample.db0 = Some 100 /\
  balance_of 1 (fst r) = Some 0 /\
  option_map User.totalContests (findById User._id 1 (users (fst r)))
    = Some 1.
Proof. vm_compute. repeat split; reflexivity. Qed.

(** C8, amended: [create-team] validates nothing about the submitted
    team.  Whatever the roster, the captain and the vice-captain are
    (any roster size, names outside the roster, the same name twice),
    when the contest exists and the caller's balance covers the entry fee
    the team is stored as sent, the call is answered 201, the fee is
    taken and totalContests grows by one. *)
Theorem join_stores_any_team (e : Env) (s : DB) (userId : ObjectId)
    (user : User.t) (contestId : ObjectId) (contest : Contest.t)
    (matchId teamName : string) (players : list Player.t)
    (captain viceCaptain : string) :
  findById User._id userId (users s) = Some user ->
  contest_of contestId s = Some contest ->
  Contest.entryFee contest <= User.balance user ->
  let r := create_team e (Some userId) contestId matchId teamName players
             captain viceCaptain s in
  snd r = status_send 201
            (SendTeamCreated (new_oid e) "Team created successfully") /\
  teams (fst r)
    = (teams s ++ [Team.mk (new_oid e) userId contestId matchId teamName
                           captain viceCaptain players 0 None (now e)])%list /\
  balance_of userId (fst r)
    = Some (User.balance user - Contest.entryFee contest) /\
  option_map User.totalContests (findById User._id userId (users (fst r)))
    = Some (User.totalContests user + 1).
Proof.
  intros Hu Hc Hge r. subst r.
  rewrite (create_team_funded e s userId user contestId contest matchId
             teamName players captain viceCaptain Hu Hc Hge).
  simpl fst; simpl snd.
  assert (Hid := findById_id _ _ _ _ Hu).
  repeat split.
  - simpl. now rewrite Hid.
  - rewrite (balance_of_inc_contests _ userId _ _ _ _ _ _ Hu).
    f_equal; lia.
  - simpl. rewrite Hid.
    now rewrite (findById_updateById_same User._id userId
                   (User.inc_balance_contests (- Contest.entryFee contest) 1)
                   (users s) user Hu eq_refl).
Qed.

Lemma join_stores_any_team_witness :
  Contest.entryFee Sample.head_to_head <= User.balance Sample.alice /\
  teams (fst (create_team (Sample.env 3) (Some 1%nat) 10 "match-1" "Nobody"
                [] "Z" "Z" Sample.db0))
    = (teams Sample.db0
       ++ [Team.mk 103 1 10 "match-1" "Nobody" "Z" "Z" [] 0 None 3])%list.
Proof.
  split; [vm_compute; discriminate|].
  apply (join_stores_any_team (Sample.env 3) Sample.db0 1 Sample.alice 10
           Sample.head_to_head "match-1" "Nobody" [] "Z" "Z");
    [reflexivity | reflexivity | vm_compute; discriminate].
Defined.

(** C10: for a contest id that names no contest the handler has no
    not-found answer: [contest.entryFee] throws on [null] and the
    catch-all answers 500 with the [TypeError]'s message.  Nothing is
    written. *)
Theorem join_missing_contest_is_a_500 (e : Env) (s : DB) (userId : ObjectId)
    (user : User.t) (contestId : ObjectId) (matchId teamName : string)
    (players : list Player.t) (captain viceCaptain : string) :
  findById User._id userId (users s) = Some user ->
  contest_of contestId s = None ->
  create_team e (Some userId) contestId matchId teamName players captain
    viceCaptain s
  = (s, status_send 500
          (SendError "Cannot read properties of null (reading 'entryFee')")).
Proof.
  intros Hu Hc. now apply create_team_missing with (user := user).
Qed.

Lemma join_missing_contest_is_a_500_witness :
  contest_of 99 Sample.db0 = None /\
  create_team (Sample.env 3) (Some 1%nat) 99 "match-1" "Alice XI"
    Sample.eleven "A" "B" Sample.db0
  = (Sample.db0,
     status_send 500
       (SendError "Cannot read properties of null (reading 'entryFee')")).
Proof.
  split; [reflexivity|].
  apply (join_missing_contest_is_a_500 (Sample.env 3) Sample.db0 1
           Sample.alice 99 "match-1" "Alice XI" Sample.eleven "A" "B");
    reflexivity.
Defined.

(** ** Amounts that are zero or negative *)




(** ** Withdrawal *)

(** C7, as stated, fails in its last part: Alice's withdrawal of 100 is
    answered success and her balance goes from 100 to 0, but nothing is
    recorded: the contests, teams and payments are those of before, the
    users collection has the same number of documents, and the database
    after the call is the same whatever destination was sent. *)
Lemma withdrawal_is_not_recorded :
  let r := withdraw (Some 1%nat) 100 "alice@upi" Sample.db0 in
  snd r = send (SendSuccess
            "Withdrawal request submitted. Processed within 24 hours.") /\
  balance_of 1 Sample.db0 = Some 100 /\
  balance_of 1 (fst r) = Some 0 /\
  contests (fst r) = contests Sample.db0 /\
  teams (fst r) = teams Sample.db0 /\
  payments (fst r) = payments Sample.db0 /\
  List.length (users (fst r)) = List.length (users Sample.db0) /\
  withdraw (Some 1%nat) 100 "someone-else@upi" Sample.db0 = r.
Proof. vm_compute. repeat split; reflexivity. Qed.

(** C7, amended: for an authenticated caller, [withdraw] answers 400
    "Minimum withdrawal" when the amount is under 100, leaving the
    database unchanged; otherwise 400 "Insufficient balance" when the
    balance is under the amount, leaving the database unchanged;
    otherwise it answers success and lowers the balance by exactly the
    amount.  That debit is its only write: the database after the call
    is the one before with the caller's balance lowered, every other
    field of the caller and every other user, contest, team and payment
    as before; it stores no withdrawal record and does not use the
    destination. *)
Theorem withdraw_checks_then_debits (s : DB) (userId : ObjectId)
    (user : User.t) (amount : Z) (upiId : string) :
  findById User._id userId (users s) = Some user ->
  let r := withdraw (Some userId) amount upiId s in
  (amount < 100 ->
   r = (s, status_send 400 (SendError "Minimum withdrawal ₹100"))) /\
  (100 <= amount -> User.balance user < amount ->
   r = (s, status_send 400 (SendError "Insufficient balance"))) /\
  (100 <= amount -> amount <= User.balance user ->
   snd r = send (SendSuccess
             "Withdrawal request submitted. Processed within 24 hours.") /\
   balance_of userId (fst r) = Some (User.balance user - amount) /\
   contests (fst r) = contests s /\
   teams (fst r) = teams s /\
   payments (fst r) = payments s /\
   List.length (users (fst r)) = List.length (users s) /\
   (forall upiId', withdraw (Some userId) amount upiId' s = r) /\
   fst r = mkDB (updateById User._id userId (User.inc_balance (- amount))
                   (users s))
                (contests s) (teams s) (payments s) /\
   findById User._id userId (users (fst r))
     = Some (User.mk (User._id user) (User.name user) (User.email user)
               (User.phone user) (User.password user)
               (User.balance user - amount) (User.totalWinning user)
               (User.totalContests user) (User.kycVerified user)
               (User.createdAt user)) /\
   (forall other, other <> userId ->
      findById User._id other (users (fst r))
      = findById User._id other (users s))).
Proof.
  intros Hu r. subst r.
  assert (Hid := findById_id _ _ _ _ Hu).
  rewrite (withdraw_cases s userId user amount upiId Hu).
  split; [|split].
  - intros Hlt. apply Z.ltb_lt in Hlt. now rewrite Hlt.
  - intros Hmin Hlt.
    assert ((amount <? 100) = false) as -> by (apply Z.ltb_ge; lia).
    apply Z.ltb_lt in Hlt. now rewrite Hlt.
  - intros Hmin Hge.
    assert ((amount <? 100) = false) as Hm by (apply Z.ltb_ge; lia).
    assert ((User.balance user <? amount) = false) as Hb
      by (apply Z.ltb_ge; lia).
    rewrite Hm, Hb. simpl fst; simpl snd.
    split; [reflexivity|].
    split; [unfold set_users;
            rewrite (balance_of_inc _ userId _ _ _ _ _ Hu); f_equal; lia|].
    split; [reflexivity|]. split; [reflexivity|]. split; [reflexivity|].
    split; [simpl; apply length_updateById|].
    split.
    { intros upiId'.
      rewrite (withdraw_cases s userId user amount upiId' Hu).
      now rewrite Hm, Hb. }
    rewrite Hid. unfold set_users. simpl users.
    split; [reflexivity|]. split.
    + rewrite (findById_updateById_same User._id userId
                 (User.inc_balance (- amount)) (users s) user Hu eq_refl).
      unfold User.inc_balance. rewrite Hid. reflexivity.
    + intros other Hne.
      now apply findById_updateById_other.
Qed.

Lemma withdraw_checks_then_debits_witness :
  (withdraw (Some 1%nat) 50 "alice@upi" Sample.db0
   = (Sample.db0, status_send 400 (SendError "Minimum withdrawal ₹100"))) /\
  (withdraw (Some 3%nat) 100 "carol@upi" Sample.db0
   = (Sample.db0, status_send 400 (SendError "Insufficient balance"))) /\
  balance_of 1 (fst (withdraw (Some 1%nat) 100 "alice@upi" Sample.db0))
   = Some (100 - 100) /\
  findById User._id 2
    (users (fst (withdraw (Some 1%nat) 100 "alice@upi" Sample.db0)))
   = findById User._id 2 (users Sample.db0).
Proof.
  split; [|split; [|split]].
  - destruct (withdraw_checks_then_debits Sample.db0 1 Sample.alice 50
                "alice@upi" eq_refl) as (Hmin & _ & _).
    apply Hmin. reflexivity.
  - destruct (withdraw_checks_then_debits Sample.db0 3 Sample.carol 100
                "carol@upi" eq_refl) as (_ & Hfunds & _).
    apply Hfunds; [discriminate | reflexivity].
  - destruct (withdraw_checks_then_debits Sample.db0 1 Sample.alice 100
                "alice@upi" eq_refl) as (_ & _ & Hok).
    apply Hok; discriminate.
  - destruct (withdraw_checks_then_debits Sample.db0 1 Sample.alice 100
                "alice@upi" eq_refl) as (_ & _ & Hok).
    destruct Hok as (_ & _ & _ & _ & _ & _ & _ & _ & _ & Hothers);
      [discriminate | discriminate |].
    apply Hothers. discriminate.
Defined.

(** ** Balances over sequences of requests *)

(** C3, as stated, fails: every balance is at least 0, Bob confirms the
    order whose recorded amount is -500, and his balance is -400. *)
Lemma negative_payment_breaks_nonneg :
  balances_nonneg Sample.db_odd_payments /\
  balance_of 2
    (run [(Sample.env 1, VerifyPayment (Some 2%nat) "order_neg" "pay_1")]
       Sample.db_odd_payments) = Some (-400) /\
  ~ balances_nonneg
      (run [(Sample.env 1, VerifyPayment (Some 2%nat) "order_neg" "pay_1")]
         Sample.db_odd_payments).
Proof.
  split; [|split].
  - unfold balances_nonneg. simpl.
    repeat constructor; discriminate.
  - reflexivity.
  - unfold balances_nonneg. vm_compute. intros H.
    inversion H as [|? ? _ H1]; subst.
    inversion H1 as [|? ? Hbob _]; subst.
    apply Hbob. reflexivity.
Qed.

(** One request keeps both: balances at least 0, recorded amounts at
    least 0. *)
Lemma handle_keeps_nonneg (e : Env) (r : Request) (s : DB) :
  balances_nonneg s -> amounts_nonneg s -> order_nonneg r ->
  balances_nonneg (fst (handle e r s)) /\ amounts_nonneg (fst (handle e r s)).
Proof.
  unfold balances_nonneg, amounts_nonneg.
  intros Hb Ha Hr.
  destruct r as [n em ph pw | auth amt g | auth o p
                | auth c m t ps cap vc | c | auth amt upi];
    unfold handle.
  - (* register *)
    unfold register, try_catch, bind, gets.
    destruct (find _ (users s)); simpl; [auto|].
    split; [|assumption].
    unfold insertOne. apply Forall_app. split; [assumption|].
    constructor; [simpl; lia | constructor].
  - (* create-order *)
    unfold create_order. auth_cases auth s.
    unfold try_catch, bind. destruct g as [m|i]; simpl; [auto|].
    split; [assumption|].
    unfold insertOne. apply Forall_app. split; [assumption|].
    constructor; [exact Hr | constructor].
  - (* verify-payment *)
    unfold verify_payment. auth_cases auth s.
    destruct (find (fun q => String.eqb (Payment.orderId q) o) (payments s))
      as [payment|] eqn:Hp.
    + unfold try_catch, bind, gets. rewrite Hp. simpl.
      assert (Hamt : 0 <= Payment.amount payment).
      { apply find_some in Hp. destruct Hp as [Hin _].
        rewrite Forall_forall in Ha. now apply Ha. }
      assert (Hbal : 0 <= User.balance user).
      { apply findById_In in Hu. rewrite Forall_forall in Hb. now apply Hb. }
      split.
      * rewrite (findById_id _ _ _ _ Hu).
        apply (Forall_updateById User._id _ userId _ _ user Hu Hb).
        simpl. lia.
      * apply Forall_updateById_all; [intros x Hx; exact Hx | assumption].
    + unfold try_catch, bind, gets. rewrite Hp. simpl. auto.
  - (* create-team *)
    unfold create_team. auth_cases auth s.
    unfold try_catch, bind, gets.
    destruct (findById Contest._id c (contests s)) as [contest|]; simpl;
      [|auto].
    destruct (User.balance user <? Contest.entryFee contest) eqn:Hlt; simpl;
      [auto|].
    apply Z.ltb_ge in Hlt.
    split; [|assumption].
    rewrite (findById_id _ _ _ _ Hu).
    apply (Forall_updateById User._id _ userId _ _ user Hu Hb).
    simpl. lia.
  - (* leaderboard *)
    simpl. auto.
  - (* withdraw *)
    unfold withdraw. auth_cases auth s.
    unfold try_catch.
    destruct (amt <? 100); simpl; [auto|].
    destruct (User.balance user <? amt) eqn:Hlt; simpl; [auto|].
    apply Z.ltb_ge in Hlt.
    split; [|assumption].
    rewrite (findById_id _ _ _ _ Hu).
    apply (Forall_updateById User._id _ userId _ _ user Hu Hb).
    simpl. lia.
Qed.

Lemma run_cons (e : Env) (r : Request) (rs : list (Env * Request)) (s : DB) :
  run ((e, r) :: rs) s = run rs (fst (handle e r s)).
Proof. reflexivity. Qed.

(** C3, amended: when requests are handled one after the other, every
    balance starts at 0 or more, every recorded payment amount is 0 or
    more and no [create-order] request carries a negative amount, then
    after each request of any sequence of register, create-order,
    verify-payment, create-team, leaderboard and withdraw requests every
    balance is 0 or more. *)
Theorem balances_stay_nonneg (rs : list (Env * Request)) (s : DB) :
  balances_nonneg s ->
  amounts_nonneg s ->
  Forall (fun er => order_nonneg (snd er)) rs ->
  Forall balances_nonneg (states rs s) /\ balances_nonneg (run rs s).
Proof.
  revert s. induction rs as [|[e r] rest IH]; intros s Hb Ha Hrs.
  - split; [constructor | exact Hb].
  - inversion Hrs as [|? ? Hr Hrest]; subst. simpl in Hr.
    destruct (handle_keeps_nonneg e r s Hb Ha Hr) as [Hb' Ha'].
    destruct (IH _ Hb' Ha' Hrest) as [Hstates Hrun].
    split.
    + simpl. constructor; assumption.
    + rewrite run_cons. exact Hrun.
Qed.

Lemma balances_stay_nonneg_witness :
  balances_nonneg
    (run [(Sample.env 1, Register "Dan" "dan@example.com" "9000000004" "h");
          (Sample.env 2, CreateOrder (Some 1%nat) 500 (inr "order_1"));
          (Sample.env 3, VerifyPayment (Some 1%nat) "order_1" "pay_1");
          (Sample.env 4, CreateTeam (Some 2%nat) 10 "match-1" "Bob XI"
                           Sample.eleven "A" "B");
          (Sample.env 5, Withdraw (Some 1%nat) 600 "alice@upi");
          (Sample.env 6, Withdraw (Some 2%nat) 100 "bob@upi")]
       Sample.db0).
Proof.
  apply balances_stay_nonneg.
  - unfold balances_nonneg. simpl. repeat constructor; discriminate.
  - unfold amounts_nonneg. simpl. constructor.
  - repeat constructor. simpl. discriminate.
Defined.

(** ** Leaderboard *)

Lemma insert_desc_perm (x : Team.t) (l : list Team.t) :
  Permutation (insert_desc x l) (x :: l).
Proof.
  induction l as [|y r IH]; simpl.
  - apply Permutation_refl.
  - destruct (Team.totalPoints y <=? Team.totalPoints x).
    + apply Permutation_refl.
    + apply perm_trans with (y :: x :: r).
      * now apply perm_skip.
      * apply perm_swap.
Qed.

Lemma sort_totalPoints_desc_perm (l : list Team.t) :
  Permutation (sort_totalPoints_desc l) l.
Proof.
  induction l as [|x r IH]; simpl.
  - apply perm_nil.
  - apply perm_trans with (x :: sort_totalPoints_desc r).
    + apply insert_desc_perm.
    + now apply perm_skip.
Qed.

Lemma insert_desc_hd (a x : Team.t) (l : list Team.t) :
  points_desc a x -> HdRel points_desc a l ->
  HdRel points_desc a (insert_desc x l).
Proof.
  intros Hax Hal. destruct l as [|y r]; simpl.
  - now constructor.
  - destruct (Team.totalPoints y <=? Team.totalPoints x).
    + now constructor.
    + constructor. now inversion Hal.
Qed.

Lemma insert_desc_sorted (x : Team.t) (l : list Team.t) :
  Sorted points_desc l -> Sorted points_desc (insert_desc x l).
Proof.
  induction 1 as [|y r Hr IH Hhd]; simpl.
  - repeat constructor.
  - destruct (Team.totalPoints y <=? Team.totalPoints x) eqn:E.
    + apply Z.leb_le in E. repeat constructor; assumption.
    + apply Z.leb_gt in E. constructor; [exact IH|].
      apply insert_desc_hd; [unfold points_desc; lia | exact Hhd].
Qed.

Lemma points_desc_trans (a b c : Team.t) :
  points_desc a b -> points_desc b c -> points_desc a c.
Proof. unfold points_desc. lia. Qed.

Lemma sort_totalPoints_desc_sorted (l : list Team.t) :
  StronglySorted points_desc (sort_totalPoints_desc l).
Proof.
  apply Sorted_StronglySorted.
  - intros a b c. apply points_desc_trans.
  - induction l as [|x r IH]; simpl.
    + constructor.
    + now apply insert_desc_sorted.
Qed.

Lemma forEach_rank_length (k : Z)
    (l : list (Team.t * option (ObjectId * string))) :
  List.length (forEach_rank k l) = List.length l.
Proof.
  revert k. induction l as [|[d o] r IH]; intros k; simpl; congruence.
Qed.

Lemma forEach_rank_keeps_fields (k : Z)
    (l : list (Team.t * option (ObjectId * string))) :
  map (fun d => (without_rank (fst d), snd d)) (forEach_rank k l)
  = map (fun d => (without_rank (fst d), snd d)) l.
Proof.
  revert k. induction l as [|[d o] r IH]; intros k; simpl.
  - reflexivity.
  - now rewrite IH.
Qed.

Lemma forEach_rank_ranks (k : nat)
    (l : list (Team.t * option (ObjectId * string))) :
  map (fun d => Team.rank (fst d)) (forEach_rank (Z.of_nat k) l)
  = map (fun i => Some (Z.of_nat i)) (seq (S k) (List.length l)).
Proof.
  revert k. induction l as [|[d o] r IH]; intros k.
  - reflexivity.
  - cbn [forEach_rank].
    replace (Z.of_nat k + 1) with (Z.of_nat (S k)) by lia.
    cbn [map seq List.length fst Team.rank Team.set_rank].
    f_equal. apply IH.
Qed.

(** C9, as stated, fails: contest 10 has 101 teams and the leaderboard
    sends 100 of them. *)
Lemma leaderboard_stops_at_100 :
  List.length (find_teams 10 (teams Sample.db_101)) = 101%nat /\
  List.length (sent_teams (snd (leaderboard 10 Sample.db_101))) = 100%nat /\
  ~ In 201%nat
      (map (fun d => Team._id (fst d))
         (sent_teams (snd (leaderboard 10 Sample.db_101)))).
Proof.
  split; [|split]; [vm_compute; reflexivity | vm_compute; reflexivity |].
  intros H.
  assert (E : existsb (Nat.eqb 201)
                (map (fun d => Team._id (fst d))
                   (sent_teams (snd (leaderboard 10 Sample.db_101)))) = true).
  { apply existsb_exists. exists 201%nat. split; [exact H | reflexivity]. }
  revert E. vm_compute. discriminate.
Qed.

(** C9, amended: the leaderboard sends at most 100 of the contest's
    teams: the first 100 of the contest's teams put in descending order
    of totalPoints (the sort is given no key for ties), each with its
    fields as stored apart from rank, and with ranks 1, 2, ..., N down
    the sent sequence.  The database is left as it was. *)
Theorem leaderboard_sends_top_100 (s : DB) (contestId : ObjectId) :
  exists (sorted : list Team.t)
         (docs : list (Team.t * option (ObjectId * string))),
    leaderboard contestId s = (s, send (SendTeams docs)) /\
    Permutation sorted (find_teams contestId (teams s)) /\
    StronglySorted points_desc sorted /\
    map (fun d => without_rank (fst d)) docs
      = map without_rank (firstn 100 sorted) /\
    map (fun d => Team.rank (fst d)) docs
      = map (fun i => Some (Z.of_nat i)) (seq 1 (List.length docs)) /\
    List.length docs
      = Nat.min 100 (List.length (find_teams contestId (teams s))).
Proof.
  set (sorted := sort_totalPoints_desc (find_teams contestId (teams s))).
  set (found := map (populate (users s)) (firstn 100 sorted)).
  exists sorted, (forEach_rank 0 found).
  split; [reflexivity|].
  split; [apply sort_totalPoints_desc_perm|].
  split; [apply sort_totalPoints_desc_sorted|].
  assert (Hlen : List.length found
                 = Nat.min 100 (List.length (find_teams contestId (teams s)))).
  { unfold found. rewrite length_map, length_firstn.
    unfold sorted.
    now rewrite (Permutation_length (sort_totalPoints_desc_perm _)). }
  split; [|split].
  - assert (H := forEach_rank_keeps_fields 0 found).
    apply (f_equal (map fst)) in H.
    rewrite !map_map in H. simpl in H. rewrite H.
    unfold found. rewrite map_map. reflexivity.
  - rewrite forEach_rank_length.
    exact (forEach_rank_ranks 0 found).
  - now rewrite forEach_rank_length.
Qed.

(** ** Sorting by a key *)

Section SortByFacts.
Context {D : Type} (key : D -> Z).

Lemma insert_asc_perm (x : D) (l : list D) :
  Permutation (insert_asc key x l) (x :: l).
Proof.
  induction l as [|y r IH]; simpl.
  - apply Permutation_refl.
  - destruct (key x <=? key y).
    + apply Permutation_refl.
    + apply perm_trans with (y :: x :: r);
        [now apply perm_skip | apply perm_swap].
Qed.

Lemma sort_asc_perm (l : list D) : Permutation (sort_asc key l) l.
Proof.
  induction l as [|x r IH]; simpl.
  - apply perm_nil.
  - apply perm_trans with (x :: sort_asc key r);
      [apply insert_asc_perm | now apply perm_skip].
Qed.

Lemma insert_asc_sorted (x : D) (l : list D) :
  Sorted (key_asc key) l -> Sorted (key_asc key) (insert_asc key x l).
Proof.
  induction 1 as [|y r Hr IH Hhd]; simpl.
  - repeat constructor.
  - destruct (key x <=? key y) eqn:E.
    + apply Z.leb_le in E. repeat constructor; assumption.
    + apply Z.leb_gt in E. constructor; [exact IH|].
      destruct r as [|z r']; simpl.
      * constructor. unfold key_asc. lia.
      * destruct (key x <=? key z).
        -- constructor. unfold key_asc. lia.
        -- constructor. now inversion Hhd.
Qed.

Lemma sort_asc_sorted (l : list D) :
  StronglySorted (key_asc key) (sort_asc key l).
Proof.
  apply Sorted_StronglySorted.
  - intros a b c. unfold key_asc. lia.
  - induction l as [|x r IH]; simpl.
    + constructor.
    + now apply insert_asc_sorted.
Qed.

Lemma sort_asc_In (l : list D) (x : D) : In x (sort_asc key l) <-> In x l.
Proof.
  split; apply Permutation_in;
    [apply sort_asc_perm | apply Permutation_sym, sort_asc_perm].
Qed.
End SortByFacts.

Lemma sort_desc_perm {D : Type} (key : D -> Z) (l : list D) :
  Permutation (sort_desc key l) l.
Proof. apply sort_asc_perm. Qed.

Lemma sort_desc_sorted {D : Type} (key : D -> Z) (l : list D) :
  StronglySorted (fun a b => key b <= key a) (sort_desc key l).
Proof.
  assert (H := sort_asc_sorted (fun d => - key d) l).
  unfold sort_desc.
  induction H as [|a r Hr IH Ha]; constructor.
  - exact IH.
  - rewrite Forall_forall in *. intros b Hb.
    specialize (Ha b Hb). unfold key_asc in Ha. lia.
Qed.

(** ** Registration and login *)

Lemma find_app_some {A : Type} (f : A -> bool) (l l' : list A) (a : A) :
  find f l = Some a -> find f (l ++ l') = Some a.
Proof.
  induction l as [|x r IH]; simpl; [discriminate|].
  destruct (f x); [trivial | exact IH].
Qed.

Lemma find_app_none {A : Type} (f : A -> bool) (l l' : list A) :
  find f l = None -> find f (l ++ l') = find f l'.
Proof.
  induction l as [|x r IH]; simpl; [trivial|].
  destruct (f x); [discriminate | exact IH].
Qed.

Lemma register_taken (e : Env) (s : DB) (name email phone hashed : string)
    (existing : User.t) :
  find (fun u => String.eqb (User.email u) email) (users s) = Some existing ->
  register e name email phone hashed s
  = (s, status_send 400 (SendError "User already exists")).
Proof.
  intros H. unfold register, try_catch, bind, gets. now rewrite H.
Qed.

Lemma register_free (e : Env) (s : DB) (name email phone hashed : string) :
  find (fun u => String.eqb (User.email u) email) (users s) = None ->
  register e name email phone hashed s
  = (set_users (insertOne (User.mk (new_oid e) name email phone hashed
                             100 0 0 false (now e))) s,
     status_send 201 (SendRegistered (new_oid e) name email 100 (new_oid e))).
Proof.
  intros H. unfold register, try_catch, bind, gets. now rewrite H.
Qed.

Lemma find_email_none (l : list User.t) (email : string) :
  find (fun u => String.eqb (User.email u) email) l = None ->
  ~ In email (map User.email l).
Proof.
  intros H Hin. apply in_map_iff in Hin. destruct Hin as (u & Heq & Hu).
  apply (find_none _ _ H) in Hu. simpl in Hu.
  rewrite Heq, String.eqb_refl in Hu. discriminate.
Qed.

Lemma map_email_updateById (i : ObjectId) (upd : User.t -> User.t)
    (l : list User.t) :
  (forall u, User.email (upd u) = User.email u) ->
  map User.email (updateById User._id i upd l) = map User.email l.
Proof.
  intros Hupd. induction l as [|x r IH]; simpl; [reflexivity|].
  destruct (Nat.eqb (User._id x) i); simpl; [now rewrite Hupd|].
  now rewrite IH.
Qed.

Lemma handle_keeps_emails_distinct (e : Env) (r : Request) (s : DB) :
  NoDup (emails s) -> NoDup (emails (fst (handle e r s))).
Proof.
  unfold emails. intros Hnd.
  destruct r as [n em ph pw | auth amt g | auth o p
                | auth c m t ps cap vc | c | auth amt upi];
    unfold handle.
  - destruct (find (fun u => String.eqb (User.email u) em) (users s))
      as [existing|] eqn:H.
    + now rewrite (register_taken e s n em ph pw existing H).
    + rewrite (register_free e s n em ph pw H). simpl.
      unfold insertOne. rewrite map_app. simpl.
      apply NoDup_incl_NoDup with (l := em :: map User.email (users s)).
      * constructor; [now apply find_email_none | exact Hnd].
      * rewrite length_app. simpl. rewrite Nat.add_comm. apply le_n.
      * intros x Hx. apply in_or_app. destruct Hx as [<-|Hx];
          [right; now left | now left].
  - unfold create_order. auth_cases auth s.
    unfold try_catch, bind. destruct g; simpl; exact Hnd.
  - unfold verify_payment. auth_cases auth s.
    unfold try_catch, bind, gets.
    destruct (find _ (payments s)); simpl; [|exact Hnd].
    now rewrite map_email_updateById.
  - unfold create_team. auth_cases auth s.
    unfold try_catch, bind, gets.
    destruct (findById Contest._id c (contests s)) as [contest|]; simpl;
      [|exact Hnd].
    destruct (User.balance user <? Contest.entryFee contest); simpl;
      [exact Hnd|].
    now rewrite map_email_updateById.
  - simpl. exact Hnd.
  - unfold withdraw. auth_cases auth s.
    unfold try_catch.
    destruct (amt <? 100); simpl; [exact Hnd|].
    destruct (User.balance user <? amt); simpl; [exact Hnd|].
    now rewrite map_email_updateById.
Qed.

(** X2: when no two users share an email, no sequence of register,
    create-order, verify-payment, create-team, leaderboard and withdraw
    requests makes two users share one. *)
Theorem emails_stay_distinct (rs : list (Env * Request)) (s : DB) :
  NoDup (emails s) -> NoDup (emails (run rs s)).
Proof.
  revert s. induction rs as [|[e r] rest IH]; intros s Hnd.
  - exact Hnd.
  - rewrite run_cons. apply IH. now apply handle_keeps_emails_distinct.
Qed.

Lemma emails_stay_distinct_witness :
  NoDup (emails
    (run [(Sample.env 1, Register "Dan" "dan@example.com" "9000000004" "h");
          (Sample.env 2, Register "Al" "alice@example.com" "9000000005" "h");
          (Sample.env 3, Withdraw (Some 1%nat) 100 "alice@upi")]
       Sample.db0)).
Proof.
  apply emails_stay_distinct.
  unfold emails. simpl.
  repeat constructor; simpl; intuition discriminate.
Defined.

(** X3: [login] answers 200 exactly when the first user with the given
    email exists and [bcrypt.compare] returns true for the password and
    the stored hash.  An unknown email and a password that
    [bcrypt.compare] returns false for get the same 400 "Invalid
    credentials"; when [bcrypt.compare] throws the answer is 400 with
    the thrown message. *)
Theorem login_accepts_iff (compare : string -> string -> string + bool)
    (email password : string) (s : DB) :
  ((exists reply, login compare email password s = Sent 200 reply) <->
   (exists user,
      find (fun u => String.eqb (User.email u) email) (users s) = Some user /\
      compare password (User.password user) = inr true)) /\
  (find (fun u => String.eqb (User.email u) email) (users s) = None ->
   login compare email password s = Failed 400 "Invalid credentials") /\
  (forall user,
     find (fun u => String.eqb (User.email u) email) (users s) = Some user ->
     (compare password (User.password user) = inr false ->
      login compare email password s = Failed 400 "Invalid credentials") /\
     (forall thrown,
        compare password (User.password user) = inl thrown ->
        login compare email password s = Failed 400 thrown)).
Proof.
  unfold login.
  destruct (find (fun u => String.eqb (User.email u) email) (users s))
    as [user|].
  - split; [|split].
    + destruct (compare password (User.password user)) as [m|[|]] eqn:E.
      * split; [intros [reply H]; discriminate|].
        intros (u & Hu & Hc). injection Hu as <-. congruence.
      * split; intros _; eauto.
      * split; [intros [reply H]; discriminate|].
        intros (u & Hu & Hc). injection Hu as <-. congruence.
    + discriminate.
    + intros u Hu. injection Hu as <-. split.
      * now intros ->.
      * now intros thrown ->.
  - split; [|split].
    + split; [intros [reply H]; discriminate|].
      intros (u & Hu & _). discriminate.
    + reflexivity.
    + discriminate.
Qed.

Lemma login_accepts_iff_witness :
  login sample_compare "nobody@example.com" "wrong" Sample.db0
    = Failed 400 "Invalid credentials" /\
  login sample_compare "alice@example.com" "wrong" Sample.db0
    = Failed 400 "Invalid credentials" /\
  login sample_compare_throws "alice@example.com" "" Sample.db0
    = Failed 400 "Illegal arguments: undefined, string".
Proof.
  split; [|split].
  - destruct (login_accepts_iff sample_compare "nobody@example.com" "wrong"
                Sample.db0) as (_ & Hunknown & _).
    apply Hunknown. reflexivity.
  - destruct (login_accepts_iff sample_compare "alice@example.com" "wrong"
                Sample.db0) as (_ & _ & Hknown).
    destruct (Hknown Sample.alice eq_refl) as [Hwrong _].
    apply Hwrong. reflexivity.
  - destruct (login_accepts_iff sample_compare_throws "alice@example.com" ""
                Sample.db0) as (_ & _ & Hknown).
    destruct (Hknown Sample.alice eq_refl) as [_ Hthrown].
    apply Hthrown. reflexivity.
Defined.



(** ** Requests without a valid token *)

(** X5: a create-order, verify-payment, create-team or withdraw request
    whose token is missing or invalid, or decodes to an [_id] no user
    has, is answered 401 "Please authenticate" and writes nothing. *)
Theorem no_token_no_write (e : Env) (r : Request) (s : DB)
    (auth : option ObjectId) :
  token_of r = Some auth ->
  match auth with
  | None => True
  | Some userId => findById User._id userId (users s) = None
  end ->
  handle e r s = (s, status_send 401 (SendError "Please authenticate")).
Proof.
  intros Ht Hauth.
  destruct r; simpl in Ht; try discriminate; injection Ht as ->;
    unfold handle, create_order, verify_payment, create_team, withdraw,
      authenticate;
    (destruct auth as [userId|]; [now rewrite Hauth | reflexivity]).
Qed.

Lemma no_token_no_write_witness :
  handle (Sample.env 1) (Withdraw (Some 77%nat) 100 "x@upi") Sample.db0
    = (Sample.db0, status_send 401 (SendError "Please authenticate")) /\
  handle (Sample.env 1) (VerifyPayment None "order_1" "pay_1") Sample.db0
    = (Sample.db0, status_send 401 (SendError "Please authenticate")).
Proof.
  split.
  - apply (no_token_no_write (Sample.env 1) _ Sample.db0 (Some 77%nat));
      reflexivity.
  - apply (no_token_no_write (Sample.env 1) _ Sample.db0 None);
      [reflexivity | exact I].
Defined.

(** ** Orders and deposits *)

Lemma create_order_cases (e : Env) (s : DB) (userId : ObjectId)
    (user : User.t) (amount : Z) (gateway : string + string) :
  findById User._id userId (users s) = Some user ->
  create_order e (Some userId) amount gateway s =
  match gateway with
  | inl m => (s, status_send 500 (SendError m))
  | inr order_id =>
      (set_payments
         (insertOne (Payment.mk (new_oid e) (User._id user) order_id None
                       amount "created" (now e))) s,
       send (SendOrder order_id (amount * 100) "INR"))
  end.
Proof.
  intros Hu. unfold create_order, authenticate. rewrite Hu.
  unfold try_catch, bind. destruct gateway; reflexivity.
Qed.

(** X6: [create-order] never touches a balance: users, contests and
    teams are as before.  When the gateway call throws, the answer has
    status 500 and nothing is written; when it returns an order, the
    answer has status 200 and one payment record is appended, with the
    order's id, the caller as owner, the requested amount, status
    "created" and no payment id. *)
Theorem create_order_only_records (e : Env) (s : DB) (userId : ObjectId)
    (user : User.t) (amount : Z) (gateway : string + string) :
  findById User._id userId (users s) = Some user ->
  let r := create_order e (Some userId) amount gateway s in
  users (fst r) = users s /\ contests (fst r) = contests s /\
  teams (fst r) = teams s /\
  match gateway with
  | inl _ => fst r = s /\ status (snd r) = 500%nat
  | inr order_id =>
      payments (fst r)
        = (payments s ++ [Payment.mk (new_oid e) userId order_id None amount
                            "created" (now e)])%list /\
      status (snd r) = 200%nat
  end.
Proof.
  intros Hu r. subst r.
  rewrite (create_order_cases e s userId user amount gateway Hu).
  rewrite (findById_id _ _ _ _ Hu).
  destruct gateway; simpl; repeat split; reflexivity.
Qed.

Lemma create_order_only_records_witness :
  fst (create_order (Sample.env 1) (Some 1%nat) 500
         (inl "gateway down") Sample.db0) = Sample.db0 /\
  payments (fst (create_order (Sample.env 1) (Some 1%nat) 500
                   (inr "order_1") Sample.db0))
    = [Payment.mk 101 1 "order_1" None 500 "created" 1].
Proof.
  split.
  - apply (create_order_only_records (Sample.env 1) Sample.db0 1 Sample.alice
             500 (inl "gateway down") eq_refl).
  - apply (create_order_only_records (Sample.env 1) Sample.db0 1 Sample.alice
             500 (inr "order_1") eq_refl).
Defined.

(** X7: [verify-payment] for an order id no payment record has is
    answered 400 "Payment not found" and writes nothing. *)
Theorem verify_unknown_order (s : DB) (userId : ObjectId) (user : User.t)
    (orderId paymentId : string) :
  findById User._id userId (users s) = Some user ->
  find_order orderId s = None ->
  verify_payment (Some userId) orderId paymentId s
  = (s, status_send 400 (SendError "Payment not found")).
Proof.
  intros Hu Hp. unfold verify_payment, authenticate. rewrite Hu.
  unfold try_catch, bind, gets. unfold find_order in Hp. now rewrite Hp.
Qed.

Lemma verify_unknown_order_witness :
  verify_payment (Some 1%nat) "order_x" "pay_x" Sample.db0
  = (Sample.db0, status_send 400 (SendError "Payment not found")).
Proof.
  apply (verify_unknown_order Sample.db0 1 Sample.alice "order_x" "pay_x");
    reflexivity.
Defined.

(** X8: the deposit flow.  An order created for [amount] under an order
    id and a payment [_id] that no stored payment has, then confirmed
    with that order id, raises the caller's balance by exactly [amount]
    and leaves the record completed with the payment id stored. *)
Theorem order_then_confirm (e : Env) (s : DB) (userId : ObjectId)
    (user : User.t) (amount : Z) (orderId paymentId : string) :
  findById User._id userId (users s) = Some user ->
  find_order orderId s = None ->
  findById Payment._id (new_oid e) (payments s) = None ->
  let s1 := fst (create_order e (Some userId) amount (inr orderId) s) in
  let r := verify_payment (Some userId) orderId paymentId s1 in
  balance_of userId s1 = Some (User.balance user) /\
  snd r = send (SendSuccess "Payment successful") /\
  balance_of userId (fst r) = Some (User.balance user + amount) /\
  find_order orderId (fst r)
    = Some (Payment.mk (new_oid e) userId orderId (Some paymentId) amount
              "completed" (now e)).
Proof.
  intros Hu Hp Hid s1 r. subst r.
  set (payment := Payment.mk (new_oid e) (User._id user) orderId None amount
                    "created" (now e)).
  assert (Hs1 : s1 = set_payments (insertOne payment) s).
  { unfold s1.
    now rewrite (create_order_cases e s userId user amount (inr orderId) Hu). }
  clearbody s1. subst s1.
  set (s1 := set_payments (insertOne payment) s).
  assert (Hu1 : findById User._id userId (users s1) = Some user) by exact Hu.
  assert (Hp1 : find_order orderId s1 = Some payment).
  { unfold find_order, s1. simpl. unfold insertOne.
    unfold find_order in Hp. rewrite find_app_none by exact Hp.
    simpl. now rewrite String.eqb_refl. }
  rewrite (verify_payment_found s1 userId user orderId paymentId payment
             Hu1 Hp1).
  simpl fst; simpl snd.
  assert (Huid := findById_id _ _ _ _ Hu).
  split; [now apply balance_of_found|].
  split; [reflexivity|]. split.
  - now apply balance_of_inc.
  - unfold find_order. simpl. unfold insertOne.
    rewrite <- Huid.
    assert (Hupd : updateById Payment._id (new_oid e)
                     (Payment.complete paymentId) (payments s ++ [payment])
                   = (payments s ++ [Payment.complete paymentId payment])%list).
    { revert Hid. unfold findById.
      induction (payments s) as [|x l IH]; simpl.
      - intros _. now rewrite Nat.eqb_refl.
      - destruct (Nat.eqb (Payment._id x) (new_oid e)); [discriminate|].
        intros H. now rewrite IH. }
    rewrite Hupd. unfold find_order in Hp.
    rewrite find_app_none by exact Hp. simpl.
    now rewrite String.eqb_refl.
Qed.

Lemma order_then_confirm_witness :
  balance_of 1
    (fst (verify_payment (Some 1%nat) "order_1" "pay_1"
       (fst (create_order (Sample.env 1) (Some 1%nat) 500 (inr "order_1")
               Sample.db0)))) = Some (100 + 500).
Proof.
  apply (order_then_confirm (Sample.env 1) Sample.db0 1 Sample.alice 500
           "order_1" "pay_1" eq_refl eq_refl eq_refl).
Defined.

(** ** Listings *)

Lemma In_firstn {A : Type} (n : nat) (l : list A) (x : A) :
  In x (firstn n l) -> In x l.
Proof.
  revert n. induction l as [|y r IH]; intros [|n]; simpl; try tauto.
  intros [H|H]; [now left | right; now apply IH with n].
Qed.

(** X9: the contest listing of a match holds exactly the stored contests
    of that match that are active, each as often as it is stored, in
    ascending order of entry fee; an inactive contest is never listed. *)
Theorem get_contests_lists_active (matchId : string) (s : DB) :
  exists listed,
    get_contests matchId s = Sent 200 listed /\
    (forall c, In c listed <->
               In c (contests s) /\ Contest.matchId c = matchId /\
               Contest.isActive c = true) /\
    Permutation listed
      (filter (fun c => String.eqb (Contest.matchId c) matchId
                        && Contest.isActive c) (contests s)) /\
    StronglySorted (fun a b => Contest.entryFee a <= Contest.entryFee b)
      listed.
Proof.
  eexists. split; [reflexivity|]. split; [|split].
  - intros c. rewrite sort_asc_In, filter_In, andb_true_iff, String.eqb_eq.
    tauto.
  - apply sort_asc_perm.
  - apply sort_asc_sorted.
Qed.

(** X10: the match listing holds at most 20 matches, all of them stored
    with status "upcoming", in ascending order of date; when at most 20
    matches are upcoming it holds every one of them. *)
Theorem get_matches_lists_upcoming (ms : list Match.t) :
  exists listed,
    get_matches ms = Sent 200 listed /\
    (List.length listed <= 20)%nat /\
    (forall m, In m listed -> In m ms /\ Match.status m = "upcoming") /\
    StronglySorted (fun a b => Match.date a <= Match.date b) listed /\
    ((List.length
        (filter (fun m => String.eqb (Match.status m) "upcoming") ms)
      <= 20)%nat ->
     forall m, In m ms -> Match.status m = "upcoming" -> In m listed).
Proof.
  eexists. split; [reflexivity|].
  set (upcoming := filter (fun m => String.eqb (Match.status m) "upcoming") ms).
  assert (Hsorted := sort_asc_sorted Match.date upcoming).
  split; [|split; [|split]].
  - rewrite length_firstn. apply Nat.le_min_l.
  - intros m Hm. apply In_firstn in Hm.
    apply sort_asc_In in Hm. unfold upcoming in Hm.
    apply filter_In in Hm. destruct Hm as [Hin Hst].
    now apply String.eqb_eq in Hst.
  - remember (sort_asc Match.date upcoming) as sorted eqn:E. clear E.
    generalize 20%nat as n. induction Hsorted as [|a r Hr IH Ha]; intros n.
    + rewrite firstn_nil. constructor.
    + destruct n as [|n]; simpl; constructor.
      * apply IH.
      * rewrite Forall_forall in *. intros b Hb.
        apply Ha. now apply In_firstn in Hb.
  - intros Hlen m Hin Hst.
    rewrite firstn_all2.
    + apply sort_asc_In. unfold upcoming. apply filter_In.
      split; [exact Hin | now apply String.eqb_eq].
    + now rewrite (Permutation_length (sort_asc_perm Match.date upcoming)).
Qed.

Lemma map_fst_populate_contest (cs : list Contest.t) (l : list Team.t) :
  map fst (map (populate_contest cs) l) = l.
Proof.
  induction l as [|d r IH]; simpl; [reflexivity | now rewrite IH].
Qed.

(** X11: [my-teams] lists exactly the stored teams whose owner is the
    caller, each as often as it is stored, newest first, each with the
    stored contest its contest id names (or none). *)
Theorem my_teams_lists_own (s : DB) (userId : ObjectId) (user : User.t) :
  findById User._id userId (users s) = Some user ->
  exists listed,
    my_teams (Some userId) s = Sent 200 listed /\
    Permutation (map fst listed)
      (filter (fun d => Nat.eqb (Team.userId d) userId) (teams s)) /\
    (forall d, In d (map fst listed) <->
               In d (teams s) /\ Team.userId d = userId) /\
    StronglySorted (fun a b => Team.createdAt b <= Team.createdAt a)
      (map fst listed) /\
    (forall d c, In (d, c) listed -> c = contest_of (Team.contestId d) s).
Proof.
  intros Hu. unfold my_teams, authenticated. rewrite Hu.
  rewrite (findById_id _ _ _ _ Hu).
  eexists. split; [reflexivity|].
  rewrite map_fst_populate_contest.
  split; [apply sort_desc_perm|].
  split; [|split].
  - intros d. unfold sort_desc. rewrite sort_asc_In, filter_In, Nat.eqb_eq.
    tauto.
  - apply sort_desc_sorted.
  - intros d c Hin. apply in_map_iff in Hin.
    destruct Hin as (d' & Heq & _). unfold populate_contest in Heq.
    injection Heq as <- <-. reflexivity.
Qed.

Lemma my_teams_lists_own_witness :
  exists listed,
    my_teams (Some 1%nat) Sample.db_joined = Sent 200 listed /\
    forall d, In d (map fst listed) ->
              In d (teams Sample.db_joined) /\ Team.userId d = 1%nat.
Proof.
  destruct (my_teams_lists_own Sample.db_joined 1
              (User.mk 1 "Alice" "alice@example.com" "9000000001" "hash-a"
                       0 0 1 false 0) eq_refl)
    as (listed & Heq & _ & Hown & _).
  exists listed. split; [exact Heq|].
  intros d Hd. now apply Hown.
Defined.

(** X12: a team stored by a successful [create-team] is in the caller's
    [my-teams] right after, together with its contest as stored after
    the join (joinedTeams one higher). *)
Theorem joined_team_is_listed (e : Env) (s : DB) (userId : ObjectId)
    (user : User.t) (contestId : ObjectId) (contest : Contest.t)
    (matchId teamName : string) (players : list Player.t)
    (captain viceCaptain : string) :
  findById User._id userId (users s) = Some user ->
  contest_of contestId s = Some contest ->
  Contest.entryFee contest <= User.balance user ->
  let s' := fst (create_team e (Some userId) contestId matchId teamName
                   players captain viceCaptain s) in
  exists listed,
    my_teams (Some userId) s' = Sent 200 listed /\
    In (Team.mk (new_oid e) userId contestId matchId teamName captain
                viceCaptain players 0 None (now e),
        Some (Contest.inc_joinedTeams 1 contest)) listed.
Proof.
  intros Hu Hc Hge s'. subst s'.
  rewrite (create_team_funded e s userId user contestId contest matchId
             teamName players captain viceCaptain Hu Hc Hge).
  simpl fst.
  assert (Hid := findById_id _ _ _ _ Hu).
  unfold my_teams, authenticated. simpl users. rewrite Hid.
  rewrite (findById_updateById_same User._id userId
             (User.inc_balance_contests (- Contest.entryFee contest) 1)
             (users s) user Hu eq_refl).
  eexists. split; [reflexivity|].
  apply in_map_iff.
  exists (Team.mk (new_oid e) userId contestId matchId teamName captain
                  viceCaptain players 0 None (now e)).
  split.
  - unfold populate_contest. simpl. f_equal.
    now apply (findById_updateById_same Contest._id contestId
                 (Contest.inc_joinedTeams 1) (contests s) contest Hc).
  - unfold sort_desc. apply sort_asc_In. apply filter_In. simpl. split.
    + apply in_or_app. right. now left.
    + rewrite Hid. apply Nat.eqb_refl.
Qed.

Lemma joined_team_is_listed_witness :
  exists listed,
    my_teams (Some 1%nat) Sample.db_joined = Sent 200 listed /\
    In (Team.mk 102 1 10 "match-1" "Alice XI" "A" "B" Sample.eleven 0 None 2,
        Some (Contest.inc_joinedTeams 1 Sample.head_to_head)) listed.
Proof.
  apply (joined_team_is_listed (Sample.env 2) Sample.db0 1 Sample.alice 10
           Sample.head_to_head "match-1" "Alice XI" Sample.eleven "A" "B");
    [reflexivity | reflexivity | vm_compute; discriminate].
Defined.

(** ** The admin report *)

Lemma totalDeposits_sum (s : DB) : totalDeposits s = completed_sum (payments s).
Proof.
  unfold totalDeposits, aggregate_completed, completed_sum.
  destruct (filter _ (payments s)) as [|p r]; [reflexivity|].
  set (total := fold_right Z.add 0 (map Payment.amount (p :: r))).
  destruct (total =? 0) eqn:E; [|reflexivity].
  apply Z.eqb_eq in E. now rewrite E.
Qed.

(** X13: [admin/users] is guarded by the caller's email alone.  A caller
    whose email is not "admin@fantasy.com" is answered 403 "Access
    denied"; a caller with that email gets every stored user, newest
    first, their number, and as total deposits the sum of the amounts of
    the payments with status "completed" (0 when there is none). *)
Theorem admin_users_by_email (s : DB) (userId : ObjectId) (user : User.t) :
  findById User._id userId (users s) = Some user ->
  (User.email user <> "admin@fantasy.com" ->
   admin_users (Some userId) s = Failed 403 "Access denied") /\
  (User.email user = "admin@fantasy.com" ->
   exists reply,
     admin_users (Some userId) s = Sent 200 reply /\
     Permutation (admin_users_list reply) (users s) /\
     StronglySorted (fun a b => User.createdAt b <= User.createdAt a)
       (admin_users_list reply) /\
     admin_totalUsers reply = List.length (users s) /\
     admin_totalDeposits reply = completed_sum (payments s)).
Proof.
  intros Hu. unfold admin_users, authenticated. rewrite Hu.
  split.
  - intros Hne. apply String.eqb_neq in Hne. now rewrite Hne.
  - intros Heq. apply String.eqb_eq in Heq. rewrite Heq. simpl.
    eexists. split; [reflexivity|]. simpl.
    split; [apply sort_desc_perm|].
    split; [apply sort_desc_sorted|].
    split; [reflexivity | apply totalDeposits_sum].
Qed.

Lemma admin_users_by_email_witness :
  admin_users (Some 1%nat) Sample.db0 = Failed 403 "Access denied".
Proof.
  destruct (admin_users_by_email Sample.db0 1 Sample.alice eq_refl)
    as [Hdenied _].
  apply Hdenied. discriminate.
Defined.

(** X14: whoever registers first with the email "admin@fantasy.com"
    (under an [_id] no user has) gets the admin report with the token
    the registration returns. *)
Theorem register_as_admin (e : Env) (s : DB) (name phone hashed : string) :
  find (fun u => String.eqb (User.email u) "admin@fantasy.com") (users s)
    = None ->
  findById User._id (new_oid e) (users s) = None ->
  let r := register e name "admin@fantasy.com" phone hashed s in
  snd r = status_send 201
            (SendRegistered (new_oid e) name "admin@fantasy.com" 100
               (new_oid e)) /\
  exists reply,
    admin_users (Some (new_oid e)) (fst r) = Sent 200 reply /\
    admin_totalUsers reply = S (List.length (users s)) /\
    Permutation (admin_users_list reply) (users (fst r)).
Proof.
  intros Hemail Hid r. subst r.
  rewrite (register_free e s name "admin@fantasy.com" phone hashed Hemail).
  simpl fst; simpl snd. split; [reflexivity|].
  unfold admin_users, authenticated, findById. simpl users. unfold insertOne.
  rewrite find_app_none by exact Hid. simpl find.
  rewrite Nat.eqb_refl. simpl.
  eexists. split; [reflexivity|]. simpl. split.
  - rewrite length_app. simpl. apply Nat.add_comm.
  - apply sort_desc_perm.
Qed.

Lemma register_as_admin_witness :
  exists reply,
    admin_users (Some 101%nat)
      (fst (register (Sample.env 1) "Eve" "admin@fantasy.com" "9000000009"
              "h" Sample.db0)) = Sent 200 reply /\
    admin_totalUsers reply = 4%nat.
Proof.
  destruct (register_as_admin (Sample.env 1) Sample.db0 "Eve" "9000000009"
              "h" eq_refl eq_refl) as (_ & reply & Hreply & Hcount & _).
  exists reply. split; [exact Hreply | exact Hcount].
Defined.

Lemma completed_sum_complete (i : ObjectId) (pid : string)
    (l : list Payment.t) (payment : Payment.t) :
  findById Payment._id i l = Some payment ->
  completed_sum (updateById Payment._id i (Payment.complete pid) l)
  = completed_sum l
    + (if String.eqb (Payment.status payment) "completed" then 0
       else Payment.amount payment).
Proof.
  unfold findById, completed_sum.
  induction l as [|x r IH]; simpl; [discriminate|].
  destruct (Nat.eqb (Payment._id x) i).
  - intros H. injection H as ->. simpl.
    destruct (String.eqb (Payment.status payment) "completed"); simpl; lia.
  - intros H. simpl.
    destruct (String.eqb (Payment.status x) "completed"); simpl;
      rewrite (IH H); lia.
Qed.

(** X15: the admin report counts a deposit once, the balance does not.
    Confirming an order whose record is the one its [_id] names raises
    the caller's balance by the recorded amount every time, and raises
    the reported total deposits by that amount only when the record was
    not yet "completed". *)
Theorem confirm_counts_deposit_once (s : DB) (userId : ObjectId)
    (user : User.t) (orderId paymentId : string) (payment : Payment.t) :
  findById User._id userId (users s) = Some user ->
  find_order orderId s = Some payment ->
  findById Payment._id (Payment._id payment) (payments s) = Some payment ->
  let s' := fst (verify_payment (Some userId) orderId paymentId s) in
  balance_of userId s' = Some (User.balance user + Payment.amount payment) /\
  (Payment.status payment = "completed" ->
   totalDeposits s' = totalDeposits s) /\
  (Payment.status payment <> "completed" ->
   totalDeposits s' = totalDeposits s + Payment.amount payment).
Proof.
  intros Hu Hp Hid s'. subst s'.
  rewrite (verify_payment_found s userId user orderId paymentId payment Hu Hp).
  simpl fst. split; [now apply balance_of_inc|].
  rewrite !totalDeposits_sum. simpl payments.
  rewrite (completed_sum_complete _ paymentId _ payment Hid).
  split; intros Hst.
  - rewrite Hst. simpl. lia.
  - apply String.eqb_neq in Hst. now rewrite Hst.
Qed.

Lemma confirm_counts_deposit_once_witness :
  totalDeposits Sample.db_confirmed = 500 /\
  totalDeposits
    (fst (verify_payment (Some 1%nat) "order_1" "pay_1" Sample.db_confirmed))
    = totalDeposits Sample.db_confirmed /\
  balance_of 1
    (fst (verify_payment (Some 1%nat) "order_1" "pay_1" Sample.db_confirmed))
    = Some (600 + 500).
Proof.
  split; [reflexivity|].
  destruct (confirm_counts_deposit_once Sample.db_confirmed 1
              (User.mk 1 "Alice" "alice@example.com" "9000000001" "hash-a"
                       600 0 0 false 0)
              "order_1" "pay_1"
              (Payment.mk 101 1 "order_1" (Some "pay_1") 500 "completed" 1)
              eq_refl eq_refl eq_refl) as (Hbalance & Hsame & _).
  split; [apply Hsame; reflexivity | exact Hbalance].
Defined.

(** ** The welcome balance *)

(** X16: an account just registered (new email, new [_id]) can withdraw
    its starting balance of 100 at once: the withdrawal of 100 succeeds
    and leaves balance 0, and one of any other amount is refused, under
    100 as below the minimum and over 100 as not covered. *)
Theorem welcome_balance_can_be_withdrawn (e : Env) (s : DB)
    (name email phone hashed upiId : string) (amount : Z) :
  find (fun u => String.eqb (User.email u) email) (users s) = None ->
  findById User._id (new_oid e) (users s) = None ->
  let s1 := fst (register e name email phone hashed s) in
  let r := withdraw (Some (new_oid e)) amount upiId s1 in
  balance_of (new_oid e) s1 = Some 100 /\
  (amount = 100 ->
   snd r = send (SendSuccess
             "Withdrawal request submitted. Processed within 24 hours.") /\
   balance_of (new_oid e) (fst r) = Some 0) /\
  (amount < 100 ->
   r = (s1, status_send 400 (SendError "Minimum withdrawal ₹100"))) /\
  (100 < amount ->
   r = (s1, status_send 400 (SendError "Insufficient balance"))).
Proof.
  intros Hemail Hid s1 r.
  set (user := User.mk (new_oid e) name email phone hashed 100 0 0 false
                 (now e)).
  assert (Hs1 : s1 = set_users (insertOne user) s).
  { unfold s1. now rewrite (register_free e s name email phone hashed Hemail). }
  assert (Hu : findById User._id (new_oid e) (users s1) = Some user).
  { rewrite Hs1. unfold findById. simpl. unfold insertOne.
    rewrite find_app_none by exact Hid. simpl. now rewrite Nat.eqb_refl. }
  clearbody s1.
  assert (Hw := withdraw_cases s1 (new_oid e) user amount upiId Hu).
  fold r in Hw. clearbody r.
  split; [now rewrite (balance_of_found s1 _ user Hu)|].
  split; [|split].
  - intros ->. rewrite Hw. simpl. split; [reflexivity|].
    unfold set_users.
    now rewrite (balance_of_inc _ (new_oid e) user (-100) _ _ _ Hu).
  - intros Hlt. rewrite Hw. apply Z.ltb_lt in Hlt. now rewrite Hlt.
  - intros Hgt. rewrite Hw.
    assert ((amount <? 100) = false) as -> by (apply Z.ltb_ge; lia).
    assert ((User.balance user <? amount) = true) as ->
      by (apply Z.ltb_lt; simpl; lia).
    reflexivity.
Qed.

Lemma welcome_balance_can_be_withdrawn_witness :
  balance_of 101
    (fst (withdraw (Some 101%nat) 100 "dan@upi"
       (fst (register (Sample.env 1) "Dan" "dan@example.com" "9000000004"
               "h" Sample.db0)))) = Some 0.
Proof.
  destruct (welcome_balance_can_be_withdrawn (Sample.env 1) Sample.db0
              "Dan" "dan@example.com" "9000000004" "h" "dan@upi" 100
              eq_refl eq_refl) as (_ & Hok & _).
  apply Hok. reflexivity.
Defined.

(** ** What a request can write *)

(** The five shapes of the database after one request: untouched; one
    user appended; payments rewritten with all else untouched; one
    balance moved (payments possibly rewritten); a join. *)
Lemma handle_effect (e : Env) (r : Request) (s : DB) :
  let s' := fst (handle e r s) in
  s' = s \/
  (exists u, User.totalContests u = 0 /\
             s' = mkDB (users s ++ [u]) (contests s) (teams s) (payments s)) \/
  (exists ps, s' = mkDB (users s) (contests s) (teams s) ps) \/
  (exists userId user d ps,
     findById User._id userId (users s) = Some user /\
     s' = mkDB (updateById User._id userId (User.inc_balance d) (users s))
               (contests s) (teams s) ps) \/
  (exists userId user contestId contest team,
     findById User._id userId (users s) = Some user /\
     contest_of contestId s = Some contest /\
     Team.userId team = userId /\ Team.contestId team = contestId /\
     s' = mkDB (updateById User._id userId
                  (User.inc_balance_contests (- Contest.entryFee contest) 1)
                  (users s))
               (updateById Contest._id contestId (Contest.inc_joinedTeams 1)
                  (contests s))
               (teams s ++ [team]) (payments s)).
Proof.
  intros s'. subst s'.
  destruct r as [n em ph pw | auth amt g | auth o p
                | auth c m t ps cap vc | c | auth amt upi];
    unfold handle.
  - destruct (find (fun u => String.eqb (User.email u) em) (users s))
      as [existing|] eqn:H.
    + rewrite (register_taken e s n em ph pw existing H). now left.
    + rewrite (register_free e s n em ph pw H). right; left.
      eexists. split; [|reflexivity]. reflexivity.
  - unfold create_order. unfold authenticate.
    destruct auth as [userId|]; [|now left].
    destruct (findById User._id userId (users s)) as [user|] eqn:Hu;
      [|now left].
    unfold try_catch, bind. destruct g; simpl; [now left|].
    right; right; left. eexists. reflexivity.
  - unfold authenticate, verify_payment, authenticate.
    destruct auth as [userId|]; [|now left].
    destruct (findById User._id userId (users s)) as [user|] eqn:Hu;
      [|now left].
    unfold try_catch, bind, gets.
    destruct (find _ (payments s)) as [payment|]; simpl; [|now left].
    right; right; right; left.
    exists userId, user, (Payment.amount payment). eexists.
    split; [exact Hu|]. now rewrite (findById_id _ _ _ _ Hu).
  - unfold create_team, authenticate.
    destruct auth as [userId|]; [|now left].
    destruct (findById User._id userId (users s)) as [user|] eqn:Hu;
      [|now left].
    unfold try_catch, bind, gets.
    destruct (findById Contest._id c (contests s)) as [contest|] eqn:Hc;
      simpl; [|now left].
    destruct (User.balance user <? Contest.entryFee contest); simpl;
      [now left|].
    right; right; right; right.
    exists userId, user, c, contest,
      (Team.mk (new_oid e) (User._id user) c m t cap vc ps 0 None (now e)).
    split; [exact Hu|]. split; [exact Hc|].
    rewrite (findById_id _ _ _ _ Hu).
    split; [reflexivity|]. split; reflexivity.
  - now left.
  - unfold withdraw, authenticate.
    destruct auth as [userId|]; [|now left].
    destruct (findById User._id userId (users s)) as [user|] eqn:Hu;
      [|now left].
    unfold try_catch.
    destruct (amt <? 100); simpl; [now left|].
    destruct (User.balance user <? amt); simpl; [now left|].
    right; right; right; left.
    exists userId, user, (- amt). eexists.
    split; [exact Hu|]. now rewrite (findById_id _ _ _ _ Hu).
Qed.

Lemma teams_in_app (contestId : ObjectId) (us : list User.t)
    (cs : list Contest.t) (ts : list Team.t) (ps : list Payment.t)
    (team : Team.t) :
  teams_in contestId (mkDB us cs (ts ++ [team]) ps)
  = Z.of_nat (List.length (find_teams contestId ts))
    + (if Nat.eqb (Team.contestId team) contestId then 1 else 0).
Proof.
  unfold teams_in, find_teams. simpl. rewrite filter_app, length_app. simpl.
  destruct (Nat.eqb (Team.contestId team) contestId); simpl; lia.
Qed.

Lemma teams_of_app (userId : ObjectId) (us : list User.t)
    (cs : list Contest.t) (ts : list Team.t) (ps : list Payment.t)
    (team : Team.t) :
  teams_of userId (mkDB us cs (ts ++ [team]) ps)
  = Z.of_nat (List.length
      (filter (fun d => Nat.eqb (Team.userId d) userId) ts))
    + (if Nat.eqb (Team.userId team) userId then 1 else 0).
Proof.
  unfold teams_of. simpl. rewrite filter_app, length_app. simpl.
  destruct (Nat.eqb (Team.userId team) userId); simpl; lia.
Qed.

Lemma handle_contest_bookkeeping (e : Env) (r : Request) (s : DB)
    (contestId : ObjectId) (contest : Contest.t) :
  contest_of contestId s = Some contest ->
  exists contest',
    contest_of contestId (fst (handle e r s)) = Some contest' /\
    Contest.entryFee contest' = Contest.entryFee contest /\
    Contest.maxTeams contest' = Contest.maxTeams contest /\
    Contest.isActive contest' = Contest.isActive contest /\
    Contest.joinedTeams contest' - teams_in contestId (fst (handle e r s))
    = Contest.joinedTeams contest - teams_in contestId s.
Proof.
  intros Hc.
  destruct (handle_effect e r s)
    as [H | [(u & _ & H) | [(ps & H) | [(j & user & d & ps & _ & H)
       | (j & user & cid & c & team & Hu & Hc' & Htu & Htc & H)]]]];
    rewrite H; clear H.
  - exists contest. repeat split; first [exact Hc | reflexivity].
  - exists contest. repeat split; first [exact Hc | reflexivity].
  - exists contest. repeat split; first [exact Hc | reflexivity].
  - exists contest. repeat split; first [exact Hc | reflexivity].
  - rewrite teams_in_app. rewrite Htc. unfold contest_of. simpl contests.
    destruct (Nat.eqb cid contestId) eqn:E.
    + apply Nat.eqb_eq in E. subst contestId.
      assert (c = contest) as -> by congruence.
      exists (Contest.inc_joinedTeams 1 contest).
      split; [now apply findById_updateById_same|].
      unfold teams_in. simpl. repeat split; try reflexivity. lia.
    + apply Nat.eqb_neq in E.
      exists contest.
      split.
      * rewrite findById_updateById_other; [exact Hc | reflexivity |].
        congruence.
      * unfold teams_in. repeat split; try reflexivity. lia.
Qed.

(** X17: over any sequence of requests a stored contest keeps its entry
    fee, its capacity and its active flag, and its joinedTeams counter
    moves exactly with the number of stored teams that name it: the
    counter grows by the number of teams the sequence stored for the
    contest. *)
Theorem joinedTeams_counts_teams (rs : list (Env * Request)) (s : DB)
    (contestId : ObjectId) (contest : Contest.t) :
  contest_of contestId s = Some contest ->
  exists contest',
    contest_of contestId (run rs s) = Some contest' /\
    Contest.entryFee contest' = Contest.entryFee contest /\
    Contest.maxTeams contest' = Contest.maxTeams contest /\
    Contest.isActive contest' = Contest.isActive contest /\
    Contest.joinedTeams contest'
    = Contest.joinedTeams contest
      + (teams_in contestId (run rs s) - teams_in contestId s).
Proof.
  revert s contest. induction rs as [|[e r] rest IH]; intros s contest Hc.
  - exists contest. repeat split; try reflexivity; [exact Hc | simpl; lia].
  - destruct (handle_contest_bookkeeping e r s contestId contest Hc)
      as (c1 & Hc1 & Hfee1 & Hmax1 & Hact1 & Hcount1).
    destruct (IH _ c1 Hc1) as (c2 & Hc2 & Hfee2 & Hmax2 & Hact2 & Hcount2).
    exists c2. rewrite run_cons.
    repeat split; try congruence. lia.
Qed.

Lemma joinedTeams_counts_teams_witness :
  exists contest',
    contest_of 10
      (run [(Sample.env 3, CreateTeam (Some 2%nat) 10 "match-1" "Bob XI"
                             Sample.eleven "A" "B");
            (Sample.env 4, CreateTeam (Some 3%nat) 10 "match-1" "Carol XI"
                             Sample.eleven "A" "B");
            (Sample.env 5, Withdraw (Some 3%nat) 10 "carol@upi")]
         Sample.db_joined) = Some contest' /\
    Contest.maxTeams contest' = 1.
Proof.
  destruct (joinedTeams_counts_teams
              [(Sample.env 3, CreateTeam (Some 2%nat) 10 "match-1" "Bob XI"
                                Sample.eleven "A" "B");
               (Sample.env 4, CreateTeam (Some 3%nat) 10 "match-1" "Carol XI"
                                Sample.eleven "A" "B");
               (Sample.env 5, Withdraw (Some 3%nat) 10 "carol@upi")]
              Sample.db_joined 10
              (Contest.inc_joinedTeams 1 Sample.head_to_head) eq_refl)
    as (c & Hc & _ & Hmax & _).
  exists c. split; [exact Hc | exact Hmax].
Defined.

Lemma handle_user_bookkeeping (e : Env) (r : Request) (s : DB)
    (userId : ObjectId) (user : User.t) :
  findById User._id userId (users s) = Some user ->
  exists user',
    findById User._id userId (users (fst (handle e r s))) = Some user' /\
    User.email user' = User.email user /\
    User.password user' = User.password user /\
    User.totalWinning user' = User.totalWinning user /\
    User.kycVerified user' = User.kycVerified user /\
    User.totalContests user' - teams_of userId (fst (handle e r s))
    = User.totalContests user - teams_of userId s.
Proof.
  intros Hu.
  destruct (handle_effect e r s)
    as [H | [(u & _ & H) | [(ps & H) | [(j & cur & d & ps & Hj & H)
       | (j & cur & cid & c & team & Hj & Hc & Htu & Htc & H)]]]];
    rewrite H; clear H.
  - exists user. repeat split; first [exact Hu | reflexivity].
  - exists user. repeat split; try reflexivity.
    simpl. now apply find_app_some.
  - exists user. repeat split; first [exact Hu | reflexivity].
  - simpl users. destruct (Nat.eqb j userId) eqn:E.
    + apply Nat.eqb_eq in E. subst j.
      exists (User.inc_balance d user).
      split; [now apply findById_updateById_same|].
      repeat split; reflexivity.
    + apply Nat.eqb_neq in E. exists user.
      split.
      * rewrite findById_updateById_other; [exact Hu | reflexivity |].
        congruence.
      * repeat split; reflexivity.
  - rewrite teams_of_app. rewrite Htu. simpl users.
    destruct (Nat.eqb j userId) eqn:E.
    + apply Nat.eqb_eq in E. subst userId.
      exists (User.inc_balance_contests (- Contest.entryFee c) 1 user).
      split; [now apply findById_updateById_same|].
      unfold teams_of. simpl. repeat split; try reflexivity. lia.
    + apply Nat.eqb_neq in E. exists user.
      split.
      * rewrite findById_updateById_other; [exact Hu | reflexivity |].
        congruence.
      * unfold teams_of. repeat split; try reflexivity. lia.
Qed.

(** X18: over any sequence of requests a stored user keeps email,
    password hash, KYC flag and totalWinning (no route pays winnings),
    and totalContests moves exactly with the number of stored teams the
    user owns. *)
Theorem totalContests_counts_teams (rs : list (Env * Request)) (s : DB)
    (userId : ObjectId) (user : User.t) :
  findById User._id userId (users s) = Some user ->
  exists user',
    findById User._id userId (users (run rs s)) = Some user' /\
    User.email user' = User.email user /\
    User.password user' = User.password user /\
    User.totalWinning user' = User.totalWinning user /\
    User.kycVerified user' = User.kycVerified user /\
    User.totalContests user'
    = User.totalContests user
      + (teams_of userId (run rs s) - teams_of userId s).
Proof.
  revert s user. induction rs as [|[e r] rest IH]; intros s user Hu.
  - exists user. repeat split; try reflexivity; [exact Hu | simpl; lia].
  - destruct (handle_user_bookkeeping e r s userId user Hu)
      as (u1 & Hu1 & He1 & Hp1 & Hw1 & Hk1 & Hcount1).
    destruct (IH _ u1 Hu1) as (u2 & Hu2 & He2 & Hp2 & Hw2 & Hk2 & Hcount2).
    exists u2. rewrite run_cons.
    repeat split; try congruence. lia.
Qed.

Lemma totalContests_counts_teams_witness :
  exists user',
    findById User._id 2
      (users
         (run [(Sample.env 3, CreateTeam (Some 2%nat) 11 "match-1" "Bob XI"
                                Sample.eleven "A" "B");
               (Sample.env 4, CreateTeam (Some 2%nat) 11 "match-1" "Bob II"
                                Sample.eleven "A" "B");
               (Sample.env 5, Withdraw (Some 2%nat) 100 "bob@upi")]
            Sample.db0)) = Some user' /\
    User.totalWinning user' = 0.
Proof.
  destruct (totalContests_counts_teams
              [(Sample.env 3, CreateTeam (Some 2%nat) 11 "match-1" "Bob XI"
                                Sample.eleven "A" "B");
               (Sample.env 4, CreateTeam (Some 2%nat) 11 "match-1" "Bob II"
                                Sample.eleven "A" "B");
               (Sample.env 5, Withdraw (Some 2%nat) 100 "bob@upi")]
              Sample.db0 2 Sample.bob eq_refl)
    as (u & Hu & _ & _ & Hw & _).
  exists u. split; [exact Hu | exact Hw].
Defined.

(** ** Two joins in flight *)

Lemma create_team_behind_middleware (e : Env) (auth : option ObjectId)
    (contestId : ObjectId) (matchId teamName : string)
    (players : list Player.t) (captain viceCaptain : string) :
  create_team e auth contestId matchId teamName players captain viceCaptain
  = authenticate auth (fun user =>
      create_team_handler e user contestId matchId teamName players captain
        viceCaptain).
Proof. reflexivity. Qed.

Lemma create_team_handler_funded (e : Env) (s : DB) (user : User.t)
    (contestId : ObjectId) (contest : Contest.t) (matchId teamName : string)
    (players : list Player.t) (captain viceCaptain : string) :
  contest_of contestId s = Some contest ->
  Contest.entryFee contest <= User.balance user ->
  create_team_handler e user contestId matchId teamName players captain
    viceCaptain s =
  (mkDB (updateById User._id (User._id user)
           (User.inc_balance_contests (- Contest.entryFee contest) 1)
           (users s))
        (updateById Contest._id contestId (Contest.inc_joinedTeams 1)
           (contests s))
        (teams s ++
           [Team.mk (new_oid e) (User._id user) contestId matchId teamName
                    captain viceCaptain players 0 None (now e)])
        (payments s),
   status_send 201 (SendTeamCreated (new_oid e) "Team created successfully")).
Proof.
  intros Hc Hge. unfold create_team_handler, try_catch, bind, gets.
  unfold contest_of in Hc. rewrite Hc. simpl.
  assert ((User.balance user <? Contest.entryFee contest) = false) as ->
    by (apply Z.ltb_ge; exact Hge).
  reflexivity.
Qed.

(** X19: the balance check of [create-team] reads the [req.user] that
    [authenticate] loaded, the debit is applied to the stored balance.
    When two joins of one user have both passed [authenticate] on the
    same database before either handler runs, and the balance covers one
    entry fee, both handlers answer 201 and the stored balance ends at
    the starting balance less twice the fee: below 0 when the balance
    covers the fee once but not twice. *)
Theorem two_joins_in_flight_both_debit (e1 e2 : Env) (s : DB)
    (userId : ObjectId) (user : User.t) (contestId : ObjectId)
    (contest : Contest.t) (matchId teamName1 teamName2 : string)
    (players1 players2 : list Player.t)
    (captain1 viceCaptain1 captain2 viceCaptain2 : string) :
  findById User._id userId (users s) = Some user ->
  contest_of contestId s = Some contest ->
  Contest.entryFee contest <= User.balance user ->
  let r1 := create_team_handler e1 user contestId matchId teamName1 players1
              captain1 viceCaptain1 s in
  let r2 := create_team_handler e2 user contestId matchId teamName2 players2
              captain2 viceCaptain2 (fst r1) in
  status (snd r1) = 201%nat /\
  status (snd r2) = 201%nat /\
  balance_of userId (fst r2)
    = Some (User.balance user - 2 * Contest.entryFee contest) /\
  (User.balance user < 2 * Contest.entryFee contest ->
   ~ balances_nonneg (fst r2)).
Proof.
  intros Hu Hc Hge r1 r2.
  assert (Hid := findById_id _ _ _ _ Hu).
  assert (H1 := create_team_handler_funded e1 s user contestId contest
                  matchId teamName1 players1 captain1 viceCaptain1 Hc Hge).
  fold r1 in H1.
  assert (Hc1 : contest_of contestId (fst r1)
                = Some (Contest.inc_joinedTeams 1 contest)).
  { rewrite H1. simpl fst. now apply contest_of_inc. }
  assert (Hu1 : findById User._id userId (users (fst r1))
                = Some (User.inc_balance_contests
                          (- Contest.entryFee contest) 1 user)).
  { rewrite H1. simpl. rewrite Hid.
    now apply findById_updateById_same. }
  assert (H2 := create_team_handler_funded e2 (fst r1) user contestId
                  (Contest.inc_joinedTeams 1 contest) matchId teamName2
                  players2 captain2 viceCaptain2 Hc1 Hge).
  fold r2 in H2. clearbody r1 r2.
  assert (Hbal : balance_of userId (fst r2)
                 = Some (User.balance user - 2 * Contest.entryFee contest)).
  { rewrite H2. unfold balance_of. simpl fst. simpl users. rewrite Hid.
    rewrite (findById_updateById_same User._id userId
               (User.inc_balance_contests (- Contest.entryFee contest) 1)
               (users (fst r1)) _ Hu1 eq_refl).
    cbn [option_map User.balance User.inc_balance_contests].
    f_equal. lia. }
  split; [now rewrite H1|]. split; [now rewrite H2|].
  split; [exact Hbal|].
  intros Hlt Hnn. unfold balances_nonneg in Hnn.
  unfold balance_of in Hbal.
  destruct (findById User._id userId (users (fst r2))) as [u2|] eqn:Hu2;
    [|discriminate Hbal].
  cbn [option_map] in Hbal.
  assert (Hb : User.balance u2
               = User.balance user - 2 * Contest.entryFee contest)
    by congruence.
  apply findById_In in Hu2. rewrite Forall_forall in Hnn.
  specialize (Hnn u2 Hu2). cbv beta in Hnn. lia.
Qed.

Lemma two_joins_in_flight_both_debit_witness :
  balance_of 2
    (fst (create_team_handler (Sample.env 4) Sample.bob 13 "match-1" "Bob II"
            Sample.eleven "A" "B"
       (fst (create_team_handler (Sample.env 3) Sample.bob 13 "match-1"
               "Bob XI" Sample.eleven "A" "B" Sample.db0))))
    = Some (100 - 2 * 20).
Proof.
  apply (two_joins_in_flight_both_debit (Sample.env 3) (Sample.env 4)
           Sample.db0 2 Sample.bob 13 Sample.closed_full "match-1"
           "Bob XI" "Bob II" Sample.eleven Sample.eleven "A" "B" "A" "B");
    [reflexivity | reflexivity | vm_compute; discriminate].
Defined.

(** ** An email once registered *)

Lemma handle_keeps_email_taken (e : Env) (r : Request) (s : DB)
    (email : string) (existing : User.t) :
  find (fun u => String.eqb (User.email u) email) (users s) = Some existing ->
  exists existing',
    find (fun u => String.eqb (User.email u) email)
      (users (fst (handle e r s))) = Some existing'.
Proof.
  intros Hf.
  destruct (handle_effect e r s)
    as [H | [(u & _ & H) | [(ps & H) | [(j & cur & d & ps & _ & H)
       | (j & cur & cid & c & team & _ & _ & _ & _ & H)]]]];
    rewrite H; clear H; simpl users.
  - now exists existing.
  - exists existing. now apply find_app_some.
  - now exists existing.
  - destruct (find_updateById User._id
                (fun u => String.eqb (User.email u) email) j
                (User.inc_balance d) (users s) existing
                (fun _ => eq_refl) Hf) as [H | H]; eauto.
  - destruct (find_updateById User._id
                (fun u => String.eqb (User.email u) email) j
                (User.inc_balance_contests (- Contest.entryFee c) 1)
                (users s) existing (fun _ => eq_refl) Hf) as [H | H]; eauto.
Qed.

Lemma run_keeps_email_taken (rs : list (Env * Request)) (s : DB)
    (email : string) (existing : User.t) :
  find (fun u => String.eqb (User.email u) email) (users s) = Some existing ->
  exists existing',
    find (fun u => String.eqb (User.email u) email) (users (run rs s))
    = Some existing'.
Proof.
  revert s existing. induction rs as [|[e r] rest IH]; intros s existing Hf.
  - now exists existing.
  - rewrite run_cons.
    destruct (handle_keeps_email_taken e r s email existing Hf) as [u Hu].
    now apply IH with u.
Qed.

Lemma register_stores_email (e : Env) (s : DB)
    (name email phone hashed : string) :
  exists existing,
    find (fun u => String.eqb (User.email u) email)
      (users (fst (register e name email phone hashed s))) = Some existing.
Proof.
  destruct (find (fun u => String.eqb (User.email u) email) (users s))
    as [existing|] eqn:H.
  - rewrite (register_taken e s name email phone hashed existing H).
    now exists existing.
  - rewrite (register_free e s name email phone hashed H). simpl.
    eexists. unfold insertOne. rewrite find_app_none by exact H.
    simpl. now rewrite String.eqb_refl.
Qed.

(** X1: once a [register] whose password was hashed has been handled for
    an email (it was answered 201, or 400 "User already exists"), every
    later [register] with that email, after any sequence of requests
    handled in between, is answered 400 "User already exists" and writes
    nothing. *)
Theorem registered_email_stays_refused (e e' : Env) (s : DB)
    (name phone hashed name' phone' hashed' email : string)
    (between : list (Env * Request)) :
  let first := register e name email phone hashed s in
  let later := run between (fst first) in
  (snd first = status_send 201
                 (SendRegistered (new_oid e) name email 100 (new_oid e)) \/
   snd first = status_send 400 (SendError "User already exists")) /\
  register e' name' email phone' hashed' later
  = (later, status_send 400 (SendError "User already exists")).
Proof.
  intros first later. split.
  - unfold first.
    destruct (find (fun u => String.eqb (User.email u) email) (users s))
      as [existing|] eqn:H.
    + right. now rewrite (register_taken e s name email phone hashed existing H).
    + left. now rewrite (register_free e s name email phone hashed H).
  - destruct (register_stores_email e s name email phone hashed)
      as [existing Hf].
    destruct (run_keeps_email_taken between _ email existing Hf)
      as [existing' Hf'].
    now apply register_taken with (existing := existing').
Qed.
